(** * Stratified Data.py: income categories, random and stratified splits

    A shallow embedding of the housing-data script
    [2nd Chapter/Stratified Data.py] and of the parts of pandas, NumPy and
    scikit-learn it calls, followed by the properties of the script that
    the specification states.

    - floating-point numbers are IEEE binary64 values (Rocq's primitive
      [float]); comparisons, products and quotients are the hardware ones;
    - a [DataFrame] is an index plus a finite map from column names to
      typed columns;
    - Python exceptions are the [Raise] results of the [result] monad;
    - the global [np.random] generator is a state threaded through the
      calls that draw from it. *)

From Stdlib Require Import ZArith Floats Lia.
From stdpp Require Import gmap strings list fin_maps sorting.

Set Warnings "-inexact-float".

(** ** Python values: exceptions and results *)

(** The exceptions the script can meet. [NotModelled] is not a Python
    exception: it marks an input outside the modelled fragment of a
    library (a label column that is not categorical). *)
Inductive exn :=
  | KeyError (key : string)
  | ValueError (msg : string)
  | TypeError (msg : string)
  | IndexError
  | OverflowError
  | ZeroDivisionError
  | NotModelled (what : string).

Inductive result (A : Type) :=
  | Ok (a : A)
  | Raise (e : exn).
Arguments Ok {A} a.
Arguments Raise {A} e.

#[global] Instance result_ret : MRet result := λ A a, Ok a.

#[global] Instance result_bind : MBind result := λ A B k r,
  match r with
  | Ok a => k a
  | Raise e => Raise e
  end.

Definition is_ok {A} (r : result A) : bool :=
  match r with Ok _ => true | Raise _ => false end.

(** ** binary64 helpers *)

Module F64.

Definition isnan (x : float) : bool := negb (x =? x)%float.

(** A zero, a subnormal or a normal number: not NaN, not an infinity. *)
Definition is_finite (x : float) : bool :=
  match Prim2SF x with
  | S754_zero _ | S754_finite _ _ _ => true
  | S754_infinity _ | S754_nan => false
  end.

(** [float(n)] for a Python integer: the nearest binary64 value, ties
    to even. *)
Definition of_Z (n : Z) : float :=
  SF2Prim (binary_normalize prec emax n 0 false).

Definition of_nat (n : nat) : float := of_Z (Z.of_nat n).

(** Truncation toward zero of a decoded finite value [±m·2^e]. *)
Definition SFtrunc (x : spec_float) : option Z :=
  match x with
  | S754_zero _ => Some 0%Z
  | S754_finite s m e =>
      Some (cond_Zopp s (if (0 <=? e)%Z then Z.pos m * 2 ^ e
                         else Z.pos m / 2 ^ (- e)))%Z
  | S754_infinity _ | S754_nan => None
  end.

(** Python's [int(x)]: truncation; [OverflowError] on an infinity and
    [ValueError] on a NaN. *)
Definition py_int (x : float) : result Z :=
  match Prim2SF x with
  | S754_infinity _ => Raise OverflowError
  | S754_nan => Raise (ValueError "cannot convert float NaN to integer")
  | sf => match SFtrunc sf with Some z => Ok z | None => Raise OverflowError end
  end.

(** [math.floor] and [math.ceil] of a decoded finite value. *)
Definition SFfloor (x : spec_float) : option Z :=
  match x with
  | S754_zero _ => Some 0%Z
  | S754_finite s m e =>
      Some (if (0 <=? e)%Z then cond_Zopp s (Z.pos m * 2 ^ e)
            else (cond_Zopp s (Z.pos m) / 2 ^ (- e)))%Z
  | _ => None
  end.

Definition SFceil (x : spec_float) : option Z :=
  match x with
  | S754_zero _ => Some 0%Z
  | S754_finite s m e =>
      Some (if (0 <=? e)%Z then cond_Zopp s (Z.pos m * 2 ^ e)
            else (- (cond_Zopp (negb s) (Z.pos m) / 2 ^ (- e))))%Z
  | _ => None
  end.

Definition py_floor (x : float) : result Z :=
  match SFfloor (Prim2SF x) with
  | Some z => Ok z
  | None => if isnan x then Raise (ValueError "cannot convert float NaN to integer")
            else Raise OverflowError
  end.

Definition py_ceil (x : float) : result Z :=
  match SFceil (Prim2SF x) with
  | Some z => Ok z
  | None => if isnan x then Raise (ValueError "cannot convert float NaN to integer")
            else Raise OverflowError
  end.

End F64.

(** ** pandas: columns, frames, [pd.cut] *)

(** A column is an array of binary64 numbers, an array of strings, or a
    [Categorical]: its categories and, per row, a category or NaN
    ([None]). *)
Inductive column :=
  | Float64 (values : list float)
  | Object (values : list string)
  | Category (categories : list Z) (values : list (option Z)).

Record DataFrame := {
  index : list Z;
  columns : gmap string column
}.

(** [len(df)] *)
Definition len (df : DataFrame) : nat := length (index df).

(** [df[name]]: the column, [KeyError] when there is none. *)
Definition getitem (df : DataFrame) (name : string) : result column :=
  match columns df !! name with
  | Some c => Ok c
  | None => Raise (KeyError name)
  end.

(** [df[name] = col]: adds the column, or replaces the one of that name. *)
Definition setitem (df : DataFrame) (name : string) (col : column) : DataFrame :=
  {| index := index df; columns := <[name := col]> (columns df) |}.

Module np.

(** NumPy's order on floats for sorting and searching: NaN is larger
    than every number. *)
Definition lt (a b : float) : bool :=
  (a <? b)%float || (F64.isnan b && negb (F64.isnan a)).

(** [arr.searchsorted(key, side="left")]: binary search for the first
    position whose element is not below [key]. *)
Fixpoint binsearch_left (fuel : nat) (arr : list float) (key : float)
    (min_idx max_idx : nat) : nat :=
  match fuel with
  | O => min_idx
  | S fuel' =>
      if (min_idx <? max_idx)%nat then
        let mid_idx := (min_idx + (max_idx - min_idx) / 2)%nat in
        match arr !! mid_idx with
        | Some mid_val =>
            if lt mid_val key
            then binsearch_left fuel' arr key (S mid_idx) max_idx
            else binsearch_left fuel' arr key min_idx mid_idx
        | None => min_idx
        end
      else min_idx
  end.

Definition searchsorted_left (arr : list float) (key : float) : nat :=
  binsearch_left (S (length arr)) arr key 0 (length arr).

Definition inf : float := infinity.

End np.

Module pd.

(** [(np.diff(bins) < 0).any()] *)
Fixpoint decreases (bins : list float) : bool :=
  match bins with
  | a :: (b :: _) as rest => (b <? a)%float || decreases rest
  | _ => false
  end.

(** One value through [_bins_to_cuts] with [right=True] and
    [include_lowest=False]: the bin [ids] found by [searchsorted], NaN
    for a NaN value and for a value outside the outer edges. *)
Definition cut1 (bins : list float) (labels : list Z) (x : float) : option Z :=
  let ids := np.searchsorted_left bins x in
  if F64.isnan x || (ids =? length bins)%nat || (ids =? 0)%nat then None
  else labels !! (ids - 1)%nat.

(** [pd.cut(x, bins=bins, labels=labels)] for a sequence of bin edges. *)
Definition cut (x : column) (bins : list float) (labels : list Z) : result column :=
  match x with
  | Float64 xs =>
      if decreases bins then Raise (ValueError "bins must increase monotonically.")
      else if negb (S (length labels) =? length bins)%nat then
        Raise (ValueError "Bin labels must be one fewer than the number of bin edges")
      else Ok (Category labels (cut1 bins labels <$> xs))
  | _ => Raise (TypeError "Cannot cut non-numeric data")
  end.

End pd.

(** ** The script's functions *)

Definition income_bins : list float :=
  [0; 1.5; 3.0; 4.5; 6; np.inf]%float.

Definition income_labels : list Z := [1; 2; 3; 4; 5]%Z.

(** [add_income_category(data)]: the frame is updated in place and
    returned, so the result stands for both. *)
Definition add_income_category (data : DataFrame) : result DataFrame :=
  median_income ← getitem data "median_income";
  income_cat ← pd.cut median_income income_bins income_labels;
  Ok (setitem data "income_cat" income_cat).

(** ** NumPy's legacy generator *)

(** What [RandomState] needs of its bit generator: a state made from a
    seed and bounded draws, [rng_interval max] being uniform on
    [0 .. max] (randomkit's [rk_interval]). The Mersenne Twister behind it
    is not modelled; every result below holds for any generator. *)
Class BitGenerator := {
  rng_state : Type;
  rng_seed : Z → rng_state;
  rng_interval : nat → rng_state → nat * rng_state;
  rng_interval_le : ∀ max s, (rng_interval max s).1 ≤ max
}.

(** A small linear congruential generator, used to run the model. *)
Definition lcg_next (s : Z) : Z := ((s * 1103515245 + 12345) mod 2147483648)%Z.

Definition lcg_interval (max : nat) (s : Z) : nat * Z :=
  (Z.to_nat (lcg_next s / 65536) mod S max, lcg_next s).

#[global] Program Instance lcg : BitGenerator := {|
  rng_state := Z;
  rng_seed seed := seed;
  rng_interval := lcg_interval
|}.
Next Obligation.
  intros max s. unfold lcg_interval. simpl.
  pose proof (Nat.mod_upper_bound (Z.to_nat (lcg_next s / 65536)) (S max)). lia.
Qed.

Module RandomState.
Section with_generator.
Context `{BitGenerator}.

(** Exchange of the items at positions [i] and [j]. *)
Definition swap {A} (buf : list A) (i j : nat) : list A :=
  match buf !! i, buf !! j with
  | Some a, Some b => <[i := b]> (<[j := a]> buf)
  | _, _ => buf
  end.

(** [_shuffle_raw]: [for i in reversed(range(1, n)): j = interval(i);
    swap(i, j)]; the argument [i] counts down from [n - 1]. *)
Fixpoint shuffle_raw {A} (i : nat) (buf : list A) (s : rng_state)
    : list A * rng_state :=
  match i with
  | O => (buf, s)
  | S i' =>
      let '(j, s') := rng_interval i s in
      shuffle_raw i' (swap buf i j) s'
  end.

(** [shuffle(x)], on a copy when called through [permutation(x)]. *)
Definition shuffle {A} (x : list A) (s : rng_state) : list A * rng_state :=
  shuffle_raw (length x - 1) x s.

(** [permutation(n)] for an integer: [shuffle(np.arange(n))]. *)
Definition permutation (n : nat) (s : rng_state) : list nat * rng_state :=
  shuffle (seq 0 n) s.

(** [choice(a, size, replace=False)]: [a[permutation(len(a))[:size]]]. *)
Definition choice {A} (a : list A) (size : nat) (s : rng_state)
    : list A * rng_state :=
  let '(idx, s') := permutation (length a) s in
  (omap (λ i, a !! i) (take size idx), s').

End with_generator.
End RandomState.

(** ** Integer-position indexing *)

Definition take_rows {A} (positions : list nat) (l : list A) : list A :=
  omap (λ i, l !! i) positions.

Definition column_take (positions : list nat) (c : column) : column :=
  match c with
  | Float64 xs => Float64 (take_rows positions xs)
  | Object xs => Object (take_rows positions xs)
  | Category cats xs => Category cats (take_rows positions xs)
  end.

(** [df.iloc[positions]] for an array of non-negative positions:
    [IndexError] when one is out of bounds. Every column of a frame has
    the length of its index. *)
Definition iloc (df : DataFrame) (positions : list nat) : result DataFrame :=
  if forallb (λ i, i <? len df)%nat positions then
    Ok {| index := take_rows positions (index df);
          columns := column_take positions <$> columns df |}
  else Raise IndexError.

(** [a[:k]] and [a[k:]] for a Python integer [k]: a negative [k] counts
    from the end. *)
Definition slice_to {A} (k : Z) (a : list A) : list A :=
  if (k <? 0)%Z then take (Z.to_nat (Z.of_nat (length a) + k)) a
  else take (Z.to_nat k) a.

Definition slice_from {A} (k : Z) (a : list A) : list A :=
  if (k <? 0)%Z then drop (Z.to_nat (Z.of_nat (length a) + k)) a
  else drop (Z.to_nat k) a.

Section script.
Context `{BitGenerator}.

(** [shuffle_and_split_data(dataset, test_ratio)], drawing from the
    global generator [np.random], whose state is passed in and out. *)
Definition shuffle_and_split_data (dataset : DataFrame) (test_ratio : float)
    (np_random : rng_state) : result ((DataFrame * DataFrame) * rng_state) :=
  let '(shuffled_indices, np_random) :=
    RandomState.permutation (len dataset) np_random in
  test_set_size ← F64.py_int (F64.of_nat (len dataset) * test_ratio)%float;
  let test_indices := slice_to test_set_size shuffled_indices in
  let train_indices := slice_from test_set_size shuffled_indices in
  train_set ← iloc dataset train_indices;
  test_set ← iloc dataset test_indices;
  Ok ((train_set, test_set), np_random).

End script.

(** ** Proportions of the income categories *)

(** A [Series] of numbers indexed by category label; the order of its
    entries is not modelled. *)
Abbreviation Series := (gmap Z float).

Module Series.

Definition count (c : Z) (values : list (option Z)) : nat :=
  length (filter (λ v, v = Some c) values).

(** [s.value_counts(normalize=True)] of a categorical column: one entry
    per category, observed or not, NaN rows dropped; each count is
    divided by the sum of the counts. *)
Definition value_counts_normalize (c : column) : result Series :=
  match c with
  | Category categories values =>
      let counts := (λ c, (c, count c values)) <$> categories in
      let total := sum_list (counts.*2) in
      Ok (list_to_map
            ((λ cn, (cn.1, (F64.of_nat cn.2 / F64.of_nat total)%float)) <$> counts))
  | _ => Raise (NotModelled "value_counts of a column that is not categorical")
  end.

End Series.

(** [income_cat_proportions(data)] *)
Definition income_cat_proportions (data : DataFrame) : result Series :=
  income_cat ← getitem data "income_cat";
  Series.value_counts_normalize income_cat.

Module Frame.

(** [pd.DataFrame({name: series, ...})]: the index is the union of the
    series' indexes, a value missing from a series is NaN. *)
Definition reindex (idx : list Z) (s : Series) : column :=
  Float64 ((λ k, default nan (s !! k)) <$> idx).

Definition of_dict (data : list (string * Series)) : DataFrame :=
  let idx := elements (⋃ (dom <$> data.*2) : gset Z) in
  {| index := idx;
     columns := list_to_map ((λ ns, (ns.1, reindex idx ns.2)) <$> data) |}.

Definition key_le (a b : Z * nat) : Prop := (a.1 ≤ b.1)%Z.

#[global] Instance key_le_dec a b : Decision (key_le a b) :=
  decide (a.1 ≤ b.1)%Z.

(** [np.argsort(index, kind="stable")] *)
Definition argsort (idx : list Z) : list nat :=
  (merge_sort key_le (zip idx (seq 0 (length idx)))).*2.

(** [df.sort_index()]: the rows in ascending order of their labels. On
    the categorical index of a table of proportions pandas orders the
    rows by the position of the label among the categories; that is the
    ascending order when the categories are ascending, as the labels
    1 to 5 of [add_income_category] are, and the properties of the
    report below are stated for such categories. *)
Definition sort_index (df : DataFrame) : DataFrame :=
  let positions := argsort (index df) in
  {| index := take_rows positions (index df);
     columns := column_take positions <$> columns df |}.

(** Arithmetic on numeric columns, element by element. *)
Definition div (a b : column) : result column :=
  match a, b with
  | Float64 xs, Float64 ys => Ok (Float64 (zip_with PrimFloat.div xs ys))
  | _, _ => Raise (TypeError "unsupported operand type(s) for /")
  end.

Definition sub_scalar (a : column) (k : float) : result column :=
  match a with
  | Float64 xs => Ok (Float64 ((λ x, x - k)%float <$> xs))
  | _ => Raise (TypeError "unsupported operand type(s) for -")
  end.

Definition mul_scalar (a : column) (k : float) : result column :=
  match a with
  | Float64 xs => Ok (Float64 ((λ x, x * k)%float <$> xs))
  | _ => Raise (TypeError "unsupported operand type(s) for *")
  end.

End Frame.

(** [(subset / overall - 1) * 100], column-wise *)
Definition error_percent (subset overall : column) : result column :=
  ratio ← Frame.div subset overall;
  diff ← Frame.sub_scalar ratio 1%float;
  Frame.mul_scalar diff 100%float.

(** [compare_income_category_proportions(housing_data, strat_test_set,
    test_set)]. The name given to the index of the table is not
    modelled. *)
Definition compare_income_category_proportions
    (housing_data strat_test_set test_set : DataFrame) : result DataFrame :=
  overall ← income_cat_proportions housing_data;
  stratified ← income_cat_proportions strat_test_set;
  random ← income_cat_proportions test_set;
  let compare_props :=
    Frame.sort_index
      (Frame.of_dict [("Overall %", overall); ("Stratified %", stratified);
                      ("Random %", random)]) in
  strat_pct ← getitem compare_props "Stratified %";
  overall_pct ← getitem compare_props "Overall %";
  strat_error ← error_percent strat_pct overall_pct;
  let compare_props := setitem compare_props "Strat. Error %" strat_error in
  rand_pct ← getitem compare_props "Random %";
  overall_pct ← getitem compare_props "Overall %";
  rand_error ← error_percent rand_pct overall_pct;
  let compare_props := setitem compare_props "Rand. Error %" rand_error in
  Ok compare_props.

(** ** scikit-learn: [StratifiedShuffleSplit] *)

Module sklearn.

(** The splitter as the script configures it: a float [test_size], no
    [train_size], an integer [random_state]. *)
Record StratifiedShuffleSplit := {
  n_splits : nat;
  test_size : float;
  random_state : Z
}.

(** [check_array(y, ensure_2d=False, dtype=None)] on a categorical
    column: NaN labels and an empty array are refused. *)
Definition check_array (y : column) : result (list Z) :=
  match y with
  | Category _ values =>
      match mapM id values with
      | None => Raise (ValueError "Input y contains NaN.")
      | Some [] => Raise (ValueError "Found array with 0 sample(s)")
      | Some labels => Ok labels
      end
  | _ => Raise (NotModelled "class labels that are not categorical")
  end.

(** [_validate_shuffle_split(n_samples, test_size, train_size=None)] *)
Definition validate_shuffle_split (n_samples : nat) (test_size : float)
    : result (Z * Z) :=
  if (test_size <=? 0)%float || (1 <=? test_size)%float then
    Raise (ValueError "test_size should be in the (0, 1) range")
  else
    n_test ← F64.py_ceil (test_size * F64.of_nat n_samples)%float;
    let n_train := (Z.of_nat n_samples - n_test)%Z in
    if (Z.of_nat n_samples <? n_train + n_test)%Z then
      Raise (ValueError "The sum of train_size and test_size should be smaller")
    else if (n_train =? 0)%Z then
      Raise (ValueError "the resulting train set will be empty")
    else Ok (n_train, n_test).

(** [np.unique(y)]: the distinct labels in ascending order. *)
Definition unique (y : list Z) : list Z := merge_sort Z.le (remove_dups y).

(** [np.bincount(y_indices)]: the number of rows of each class. *)
Definition bincount (classes y : list Z) : list Z :=
  (λ c, Z.of_nat (length (filter (λ l, l = c) y))) <$> classes.

(** [np.split(np.argsort(y_indices, kind="mergesort"), ...)]: for each
    class, the positions of its rows in ascending order. *)
Definition class_positions (classes y : list Z) : list (list nat) :=
  (λ c, filter (λ p, y !! p = Some c) (seq 0 (length y))) <$> classes.

Definition np_floor (x : float) : float :=
  match F64.SFfloor (Prim2SF x) with
  | Some z => F64.of_Z z
  | None => x
  end.

(** [np.sort(np.unique(a))[::-1]]: the distinct values, largest first. *)
Fixpoint insert_desc (x : float) (l : list float) : list float :=
  match l with
  | [] => [x]
  | y :: l' =>
      if (y <? x)%float then x :: l
      else if (x =? y)%float then l
      else y :: insert_desc x l'
  end.

Definition unique_desc (a : list float) : list float :=
  foldr insert_desc [] a.

(** [np.where(a == value)] *)
Definition where_eq (a : list float) (value : float) : list nat :=
  filter (λ i, from_option (λ x, x =? value)%float false (a !! i))
         (seq 0 (length a)).

Section with_generator.
Context `{BitGenerator}.

(** The loop of [_approximate_mode] over the remainders, largest first:
    the classes with that remainder get one more draw each, chosen at
    random when fewer draws are left than classes. *)
Fixpoint add_by_remainder (values remainder floored : list float)
    (need_to_add : Z) (rng : rng_state) : list float * rng_state :=
  match values with
  | [] => (floored, rng)
  | value :: values' =>
      let inds := where_eq remainder value in
      let add_now := Z.min (Z.of_nat (length inds)) need_to_add in
      let '(inds, rng) := RandomState.choice inds (Z.to_nat add_now) rng in
      let floored := foldr (alter (λ x, x + 1)%float) floored inds in
      let need_to_add := (need_to_add - add_now)%Z in
      if (need_to_add =? 0)%Z then (floored, rng)
      else add_by_remainder values' remainder floored need_to_add rng
  end.

(** [_approximate_mode(class_counts, n_draws, rng)]. The sum of
    [floored] adds whole numbers, so the order NumPy adds them in does
    not show. *)
Definition approximate_mode (class_counts : list Z) (n_draws : Z)
    (rng : rng_state) : result (list Z * rng_state) :=
  let total := F64.of_Z (foldr Z.add 0%Z class_counts) in
  let continuous :=
    (λ c, (F64.of_Z c / total * F64.of_Z n_draws)%float) <$> class_counts in
  let floored := np_floor <$> continuous in
  need_to_add ← F64.py_int (F64.of_Z n_draws - foldl PrimFloat.add 0%float floored)%float;
  let '(floored, rng) :=
    if (0 <? need_to_add)%Z then
      let remainder := zip_with PrimFloat.sub continuous floored in
      let values := unique_desc remainder in
      add_by_remainder values remainder floored need_to_add rng
    else (floored, rng) in
  floored ← mapM F64.py_int floored;
  Ok (floored, rng).

(** [a[lo:hi]] for Python integers: a negative bound counts from the
    end, and the slice is empty when the bounds cross. *)
Definition slice {A} (lo hi : Z) (a : list A) : list A :=
  let norm k := Z.to_nat (if (k <? 0)%Z then Z.of_nat (length a) + k else k)%Z in
  take (norm hi - norm lo) (drop (norm lo) a).

(** [a.take(indices, mode="clip")] *)
Definition take_clip {A} (a : list A) (indices : list nat) : list A :=
  omap (λ i, a !! (i `min` (length a - 1))) indices.

(** The loop over the classes in one iteration of [_iter_indices]. *)
Fixpoint split_classes (class_counts n_i t_i : list Z)
    (class_indices : list (list nat)) (train test : list nat)
    (rng : rng_state) : (list nat * list nat) * rng_state :=
  match class_counts, n_i, t_i, class_indices with
  | count :: class_counts', n :: n_i', t :: t_i', indices :: class_indices' =>
      let '(permutation, rng) := RandomState.permutation (Z.to_nat count) rng in
      let perm_indices_class_i := take_clip indices permutation in
      split_classes class_counts' n_i' t_i' class_indices'
        (train ++ slice_to n perm_indices_class_i)
        (test ++ slice n (n + t) perm_indices_class_i) rng
  | _, _, _, _ => ((train, test), rng)
  end.

(** One iteration of the [for _ in range(self.n_splits)] loop. *)
Definition iter_once (class_counts : list Z) (class_indices : list (list nat))
    (n_train n_test : Z) (rng : rng_state)
    : result ((list nat * list nat) * rng_state) :=
  '(n_i, rng) ← approximate_mode class_counts n_train rng;
  let class_counts_remaining := zip_with Z.sub class_counts n_i in
  '(t_i, rng) ← approximate_mode class_counts_remaining n_test rng;
  let '((train, test), rng) :=
    split_classes class_counts n_i t_i class_indices [] [] rng in
  let '(train, rng) := RandomState.shuffle train rng in
  let '(test, rng) := RandomState.shuffle test rng in
  Ok ((train, test), rng).

Fixpoint iter_indices (n : nat) (class_counts : list Z)
    (class_indices : list (list nat)) (n_train n_test : Z) (rng : rng_state)
    : result (list (list nat * list nat)) :=
  match n with
  | O => Ok []
  | S n' =>
      '(train_test, rng) ← iter_once class_counts class_indices n_train n_test rng;
      rest ← iter_indices n' class_counts class_indices n_train n_test rng;
      Ok (train_test :: rest)
  end.

(** [self.split(X, y)], all its pairs of position arrays. *)
Definition split (self : StratifiedShuffleSplit) (X : DataFrame) (y : column)
    : result (list (list nat * list nat)) :=
  y ← check_array y;
  if negb (len X =? length y)%nat then
    Raise (ValueError "Found input variables with inconsistent numbers of samples")
  else
  '(n_train, n_test) ← validate_shuffle_split (len X) (test_size self);
  let classes := unique y in
  let n_classes := Z.of_nat (length classes) in
  let class_counts := bincount classes y in
  if (foldr Z.min (Z.of_nat (length y)) class_counts <? 2)%Z then
    Raise (ValueError "The least populated class in y has only 1 member")
  else if (n_train <? n_classes)%Z then
    Raise (ValueError "The train_size should be greater or equal to the number of classes")
  else if (n_test <? n_classes)%Z then
    Raise (ValueError "The test_size should be greater or equal to the number of classes")
  else
    let class_indices := class_positions classes y in
    let rng := rng_seed (random_state self) in
    iter_indices (n_splits self) class_counts class_indices n_train n_test rng.

End with_generator.
End sklearn.

Section script.
Context `{BitGenerator}.

(** [stratified_shuffle_and_split_data(dataset, data_splitter)] *)
Definition stratified_shuffle_and_split_data (dataset : DataFrame)
    (data_splitter : sklearn.StratifiedShuffleSplit)
    : result (list (DataFrame * DataFrame)) :=
  income_cat ← getitem dataset "income_cat";
  indices ← sklearn.split data_splitter dataset income_cat;
  mapM (λ '(train_index, test_index),
          stratified_train_set_n ← iloc dataset train_index;
          stratified_test_set_n ← iloc dataset test_index;
          Ok (stratified_train_set_n, stratified_test_set_n)) indices.

(** What a run of the script leaves behind. *)
Record run := {
  train_set : DataFrame;
  test_set : DataFrame;
  stratified_train_set : DataFrame;
  stratified_test_set : DataFrame;
  compare_props : DataFrame
}.

(** The module-level pipeline on the frame [load_housing_data()]
    returned, started with the global generator in state [np_random]. *)
Definition pipeline (housing_data : DataFrame) (np_random : rng_state)
    : result run :=
  let np_random := rng_seed 42 in
  housing_data ← add_income_category housing_data;
  '((train_set, test_set), np_random) ←
    shuffle_and_split_data housing_data 0.2%float np_random;
  let splitter :=
    {| sklearn.n_splits := 1; sklearn.test_size := 0.2%float;
       sklearn.random_state := 42 |} in
  splits ← stratified_shuffle_and_split_data housing_data splitter;
  '(stratified_train_set, stratified_test_set) ←
    match splits !! 0%nat with Some p => Ok p | None => Raise IndexError end;
  compare_props ←
    compare_income_category_proportions housing_data stratified_test_set test_set;
  Ok {| train_set := train_set; test_set := test_set;
        stratified_train_set := stratified_train_set;
        stratified_test_set := stratified_test_set;
        compare_props := compare_props |}.

End script.

(** ** Example frames *)

(** A frame with a default index and the one column [median_income]. *)
Definition housing (median_income : list float) : DataFrame :=
  {| index := Z.of_nat <$> seq 0 (length median_income);
     columns := {[ "median_income" := Float64 median_income ]} |}.

(** A frame whose [income_cat] column is given, with the categories of
    [add_income_category]. *)
Definition labelled (income_cat : list (option Z)) : DataFrame :=
  {| index := Z.of_nat <$> seq 0 (length income_cat);
     columns := {[ "income_cat" := Category income_labels income_cat ]} |}.

(** ** The comparison report, entry by entry *)

(** The proportion a mapping holds for a label, NaN when it holds none. *)
Definition proportion (s : Series) (label : Z) : float :=
  default nan (s !! label).

(** The percentage deviation [(subset / overall - 1) * 100]. *)
Definition percent_error (subset overall : float) : float :=
  ((subset / overall - 1) * 100)%float.

(** The number of rows that carry one of the categories. *)
Definition labelled_rows (categories : list Z) (values : list (option Z)) : nat :=
  sum_list ((λ c, Series.count c values) <$> categories).

(** * Properties *)

(** ** Comparisons of binary64 values *)

Ltac cmp_cases :=
  repeat match goal with
  | |- context [Pos.compare_cont Eq ?a ?b] =>
      change (Pos.compare_cont Eq a b) with (Pos.compare a b)
  | H : context [Pos.compare_cont Eq ?a ?b] |- _ =>
      change (Pos.compare_cont Eq a b) with (Pos.compare a b) in H
  end;
  repeat match goal with
  | |- context [(?a ?= ?b)%Z] => destruct (Z.compare_spec a b)
  | H : context [(?a ?= ?b)%Z] |- _ => destruct (Z.compare_spec a b)
  | |- context [(?a ?= ?b)%positive] => destruct (Pos.compare_spec a b)
  | H : context [(?a ?= ?b)%positive] |- _ => destruct (Pos.compare_spec a b)
  end; simpl in *; try discriminate; try reflexivity; try lia.

Lemma SFcompare_antisym x y :
  SFcompare y x = CompOpp <$> SFcompare x y.
Proof.
  destruct x as [s1|s1| |s1 m1 e1], y as [s2|s2| |s2 m2 e2]; simpl;
    try reflexivity; try (destruct s1; reflexivity); try (destruct s2; reflexivity);
    try (destruct s1, s2; reflexivity).
  destruct s1, s2; simpl; try reflexivity; f_equal; cmp_cases.
Qed.

Lemma SFltb_trans x y z :
  SFltb x y = true → SFltb y z = true → SFltb x z = true.
Proof.
  unfold SFltb.
  destruct x as [s1|s1| |s1 m1 e1], y as [s2|s2| |s2 m2 e2], z as [s3|s3| |s3 m3 e3];
    simpl; try discriminate;
    try (destruct s1; simpl; try discriminate; try reflexivity);
    try (destruct s2; simpl; try discriminate; try reflexivity);
    try (destruct s3; simpl; try discriminate; try reflexivity).
  all: intros; cmp_cases.
Qed.

Lemma SFcompare_refl x : x ≠ S754_nan → SFcompare x x = Some Eq.
Proof.
  destruct x as [s|s| |s m e]; simpl; try congruence; intros _.
  - destruct s; reflexivity.
  - destruct s; rewrite Z.compare_refl; f_equal;
      change (Pos.compare_cont Eq m m) with (Pos.compare m m);
      rewrite Pos.compare_refl; reflexivity.
Qed.

Lemma isnan_spec x : F64.isnan x = true ↔ Prim2SF x = S754_nan.
Proof.
  unfold F64.isnan. rewrite FloatAxioms.eqb_spec. unfold SFeqb. split.
  - destruct (Prim2SF x) eqn:E; try reflexivity;
      rewrite SFcompare_refl by discriminate; discriminate.
  - intros ->. reflexivity.
Qed.

Lemma isnan_false x : F64.isnan x = false ↔ Prim2SF x ≠ S754_nan.
Proof.
  rewrite <- isnan_spec. destruct (F64.isnan x); split; congruence.
Qed.

Lemma ltb_trans (x y z : float) :
  (x <? y)%float = true → (y <? z)%float = true → (x <? z)%float = true.
Proof. rewrite !FloatAxioms.ltb_spec. apply SFltb_trans. Qed.

Lemma leb_negb_ltb (x y : float) :
  F64.isnan x = false → F64.isnan y = false →
  (x <=? y)%float = negb (y <? x)%float.
Proof.
  rewrite !isnan_false, FloatAxioms.leb_spec, FloatAxioms.ltb_spec. unfold SFleb, SFltb.
  intros Hx Hy. rewrite (SFcompare_antisym (Prim2SF x) (Prim2SF y)).
  destruct (Prim2SF x) as [s1|s1| |s1 m1 e1], (Prim2SF y) as [s2|s2| |s2 m2 e2];
    try congruence; simpl; try (destruct s1); try (destruct s2); try reflexivity;
    simpl; cmp_cases.
Qed.

Lemma ltb_not_nan (x y : float) :
  (x <? y)%float = true → F64.isnan x = false ∧ F64.isnan y = false.
Proof.
  rewrite !isnan_false, FloatAxioms.ltb_spec. unfold SFltb.
  destruct (Prim2SF x), (Prim2SF y); simpl; try discriminate; split; discriminate.
Qed.

Lemma leb_not_nan (x y : float) :
  (x <=? y)%float = true → F64.isnan x = false ∧ F64.isnan y = false.
Proof.
  rewrite !isnan_false, FloatAxioms.leb_spec. unfold SFleb.
  destruct (Prim2SF x), (Prim2SF y); simpl; try discriminate; split; discriminate.
Qed.

(** ** [add_income_category] *)

(** The bin of one value, read off the edges [0, 1.5, 3, 4.5, 6, inf]:
    the binary search of [pd.cut] lands in the interval that holds it. *)
Lemma cut1_income_bins (x : float) :
  pd.cut1 income_bins income_labels x =
    if F64.isnan x then None
    else if (x <=? 0)%float then None
    else if (x <=? 1.5)%float then Some 1%Z
    else if (x <=? 3)%float then Some 2%Z
    else if (x <=? 4.5)%float then Some 3%Z
    else if (x <=? 6)%float then Some 4%Z
    else Some 5%Z.
Proof.
  unfold pd.cut1. destruct (F64.isnan x) eqn:Hnan; [reflexivity|].
  rewrite !(leb_negb_ltb x) by (assumption || reflexivity).
  unfold np.searchsorted_left, income_bins, np.inf.
  cbn [length np.binsearch_left Nat.ltb Nat.leb Nat.sub Nat.add Nat.div
       Nat.divmod fst lookup list_lookup].
  unfold np.lt. rewrite Hnan. cbn [andb]. rewrite !orb_false_r.
  pose proof (ltb_trans 0 1.5 x eq_refl) as H01.
  pose proof (ltb_trans 1.5 3 x eq_refl) as H12.
  pose proof (ltb_trans 3 4.5 x eq_refl) as H23.
  pose proof (ltb_trans 4.5 6 x eq_refl) as H34.
  pose proof (ltb_trans 6 infinity x eq_refl) as H45.
  assert (Hinf : (infinity <? x)%float = false).
  { rewrite FloatAxioms.ltb_spec. change (Prim2SF infinity) with (S754_infinity false).
    unfold SFltb. simpl. destruct (Prim2SF x) as [| [|] | |]; reflexivity. }
  rewrite Hinf in *.
  destruct (0 <? x)%float, (1.5 <? x)%float, (3 <? x)%float,
    (4.5 <? x)%float, (6 <? x)%float; simpl; try reflexivity;
    (discriminate (H01 eq_refl) || discriminate (H12 eq_refl)
     || discriminate (H23 eq_refl) || discriminate (H34 eq_refl)).
Qed.

Lemma cut1_income_cases (x : float) (label : option Z) :
  pd.cut1 income_bins income_labels x = label →
  (label = Some 1%Z ↔ (0 <? x)%float = true ∧ (x <=? 1.5)%float = true) ∧
  (label = Some 2%Z ↔ (1.5 <? x)%float = true ∧ (x <=? 3)%float = true) ∧
  (label = Some 3%Z ↔ (3 <? x)%float = true ∧ (x <=? 4.5)%float = true) ∧
  (label = Some 4%Z ↔ (4.5 <? x)%float = true ∧ (x <=? 6)%float = true) ∧
  (label = Some 5%Z ↔ (6 <? x)%float = true) ∧
  (label = None ↔ (x <=? 0)%float = true ∨ F64.isnan x = true).
Proof.
  intros <-. rewrite cut1_income_bins.
  destruct (F64.isnan x) eqn:Hnan.
  - assert (Hlt : ∀ c, (c <? x)%float = false).
    { intros c. destruct (c <? x)%float eqn:E; [|reflexivity].
      apply ltb_not_nan in E. destruct E; congruence. }
    assert (Hle : ∀ c, (x <=? c)%float = false).
    { intros c. destruct (x <=? c)%float eqn:E; [|reflexivity].
      apply leb_not_nan in E. destruct E; congruence. }
    rewrite !Hlt, !Hle. repeat split; intros; try tauto; try discriminate;
      destruct_and?; discriminate.
  - rewrite !(leb_negb_ltb x) by (assumption || reflexivity).
    pose proof (ltb_trans 0 1.5 x eq_refl) as H01.
    pose proof (ltb_trans 1.5 3 x eq_refl) as H12.
    pose proof (ltb_trans 3 4.5 x eq_refl) as H23.
    pose proof (ltb_trans 4.5 6 x eq_refl) as H34.
    destruct (0 <? x)%float, (1.5 <? x)%float, (3 <? x)%float,
      (4.5 <? x)%float, (6 <? x)%float; simpl;
      try discriminate (H01 eq_refl); try discriminate (H12 eq_refl);
      try discriminate (H23 eq_refl); try discriminate (H34 eq_refl);
      repeat split; intros; destruct_and?; destruct_or?;
      try reflexivity; try discriminate; try tauto.
Qed.

(** C1, amended: [add_income_category] returns a frame whose [income_cat]
    column holds exactly one entry for every row, determined by the row's
    [median_income] alone: label 1 on (0, 1.5], 2 on (1.5, 3], 3 on
    (3, 4.5], 4 on (4.5, 6], 5 above 6, each interval closed on the
    right; a value that is not above 0, and a NaN, gets no label (the
    entry is NaN). *)
Theorem add_income_category_bins (data : DataFrame) (median_income : list float) :
  columns data !! "median_income" = Some (Float64 median_income) →
  ∃ data' income_cat,
    add_income_category data = Ok data' ∧
    columns data' !! "income_cat" = Some (Category income_labels income_cat) ∧
    length income_cat = length median_income ∧
    ∀ i x, median_income !! i = Some x →
      ∃ label, income_cat !! i = Some label ∧
        (label = Some 1%Z ↔ (0 <? x)%float = true ∧ (x <=? 1.5)%float = true) ∧
        (label = Some 2%Z ↔ (1.5 <? x)%float = true ∧ (x <=? 3)%float = true) ∧
        (label = Some 3%Z ↔ (3 <? x)%float = true ∧ (x <=? 4.5)%float = true) ∧
        (label = Some 4%Z ↔ (4.5 <? x)%float = true ∧ (x <=? 6)%float = true) ∧
        (label = Some 5%Z ↔ (6 <? x)%float = true) ∧
        (label = None ↔ (x <=? 0)%float = true ∨ F64.isnan x = true).
Proof.
  intros Hcol.
  eexists. exists (pd.cut1 income_bins income_labels <$> median_income).
  split; [|split; [|split]].
  - unfold add_income_category, getitem. rewrite Hcol. reflexivity.
  - cbn [setitem columns]. apply lookup_insert_eq.
  - apply length_fmap.
  - intros i x Hx. exists (pd.cut1 income_bins income_labels x). split.
    + rewrite list_lookup_fmap, Hx. reflexivity.
    + apply cut1_income_cases. reflexivity.
Qed.

Lemma add_income_category_bins_witness :
  ∃ data' income_cat,
    add_income_category (housing [0.5; 3; 7]%float) = Ok data' ∧
    columns data' !! "income_cat" = Some (Category income_labels income_cat) ∧
    length income_cat = 3%nat ∧
    ∀ i x, [0.5; 3; 7]%float !! i = Some x →
      ∃ label, income_cat !! i = Some label ∧
        (label = Some 1%Z ↔ (0 <? x)%float = true ∧ (x <=? 1.5)%float = true) ∧
        (label = Some 2%Z ↔ (1.5 <? x)%float = true ∧ (x <=? 3)%float = true) ∧
        (label = Some 3%Z ↔ (3 <? x)%float = true ∧ (x <=? 4.5)%float = true) ∧
        (label = Some 4%Z ↔ (4.5 <? x)%float = true ∧ (x <=? 6)%float = true) ∧
        (label = Some 5%Z ↔ (6 <? x)%float = true) ∧
        (label = None ↔ (x <=? 0)%float = true ∨ F64.isnan x = true).
Proof.
  apply (add_income_category_bins (housing [0.5; 3; 7]%float) [0.5; 3; 7]%float).
  reflexivity.
Defined.

(** C1 as stated fails below zero: -1 lies in (-inf, 1.5], and the
    [income_cat] column of the returned frame holds no label for its row
    instead of label 1. *)
Lemma income_below_zero_unlabelled :
  (-1 <=? 1.5)%float = true ∧
  ∃ data',
    add_income_category (housing [-1]%float) = Ok data' ∧
    columns data' !! "income_cat" = Some (Category income_labels [None]) ∧
    @None Z ≠ Some 1%Z.
Proof.
  split; [reflexivity|]. eexists. split; [reflexivity|].
  split; [reflexivity|discriminate].
Qed.

(** C9: on the five rows with median incomes 0.5, 2.0, 3.5, 5.0 and 7.0
    the [income_cat] column of the returned frame holds the labels 1, 2,
    3, 4 and 5 in this order, one row per bin. *)
Theorem add_income_category_scenario :
  ∃ data',
    add_income_category (housing [0.5; 2.0; 3.5; 5.0; 7.0]%float) = Ok data' ∧
    columns data' !! "income_cat" =
      Some (Category income_labels [Some 1; Some 2; Some 3; Some 4; Some 5]%Z) ∧
    columns data' !! "median_income" = Some (Float64 [0.5; 2.0; 3.5; 5.0; 7.0]%float) ∧
    index data' = [0; 1; 2; 3; 4]%Z.
Proof.
  eexists. split; [reflexivity|].
  split; [reflexivity|]. split; reflexivity.
Qed.

(** C8: [add_income_category] only adds [income_cat]: the index (the rows
    and their order) is the input's, every other column is the input's,
    and the columns of the result are those of the input and
    [income_cat]. *)
Theorem add_income_category_frame (data : DataFrame) (median_income : list float) :
  columns data !! "median_income" = Some (Float64 median_income) →
  ∃ data',
    add_income_category data = Ok data' ∧
    index data' = index data ∧
    (∀ name, name ≠ "income_cat" → columns data' !! name = columns data !! name) ∧
    dom (columns data') = dom (columns data) ∪ {["income_cat"]}.
Proof.
  intros Hcol. eexists. split; [|split; [|split]].
  - unfold add_income_category, getitem. rewrite Hcol. reflexivity.
  - reflexivity.
  - intros name Hne. simpl. apply lookup_insert_ne. congruence.
  - simpl. rewrite dom_insert_L. apply (comm_L (∪)).
Qed.

Lemma add_income_category_frame_witness :
  ∃ data',
    add_income_category (housing [2; 5]%float) = Ok data' ∧
    index data' = index (housing [2; 5]%float) ∧
    (∀ name, name ≠ "income_cat" →
       columns data' !! name = columns (housing [2; 5]%float) !! name) ∧
    dom (columns data') = dom (columns (housing [2; 5]%float)) ∪ {["income_cat"]}.
Proof.
  apply (add_income_category_frame (housing [2; 5]%float) [2; 5]%float).
  reflexivity.
Defined.

(** ** [income_cat_proportions] *)

Lemma lookup_list_to_map_fun {A} (f : Z → A) (l : list Z) (k : Z) :
  (list_to_map ((λ c, (c, f c)) <$> l) : gmap Z A) !! k =
    if decide (k ∈ l) then Some (f k) else None.
Proof.
  induction l as [|c l IH]; [simpl|rewrite fmap_cons, list_to_map_cons].
  - rewrite lookup_empty. destruct (decide (k ∈ [])) as [Hin|Hin]; [|reflexivity].
    apply not_elem_of_nil in Hin. destruct Hin.
  - destruct (decide (c = k)) as [->|Hne].
    + rewrite lookup_insert_eq. rewrite decide_True by left. reflexivity.
    + rewrite lookup_insert_ne by assumption. rewrite IH.
      destruct (decide (k ∈ l)) as [Hin|Hin].
      * rewrite decide_True by (right; assumption). reflexivity.
      * rewrite decide_False; [reflexivity|].
        intros Hin'. apply elem_of_cons in Hin'. destruct Hin'; congruence.
Qed.

Lemma value_counts_normalize_lookup categories values :
  ∃ props,
    Series.value_counts_normalize (Category categories values) = Ok props ∧
    ∀ k : Z, props !! k =
      if decide (k ∈ categories)
      then Some (F64.of_nat (Series.count k values)
                 / F64.of_nat (labelled_rows categories values))%float
      else None.
Proof.
  eexists. split; [reflexivity|]. intros k.
  rewrite <- list_fmap_compose. unfold compose. simpl.
  rewrite <- list_fmap_compose. unfold compose. simpl.
  apply (lookup_list_to_map_fun
    (λ c, (F64.of_nat (Series.count c values)
           / F64.of_nat (sum_list ((λ c, Series.count c values) <$> categories)))%float)).
Qed.

Lemma income_cat_proportions_domain (data : DataFrame)
    (categories : list Z) (values : list (option Z)) :
  columns data !! "income_cat" = Some (Category categories values) →
  ∃ props,
    income_cat_proportions data = Ok props ∧
    (∀ c, is_Some (props !! c) ↔ c ∈ categories).
Proof.
  intros Hcol.
  destruct (value_counts_normalize_lookup categories values) as (props & Hprops & Hlk).
  exists props. split.
  { unfold income_cat_proportions, getitem. rewrite Hcol. exact Hprops. }
  intros c. rewrite Hlk. case_decide; split; intros Hc;
    try assumption; try (eexists; reflexivity); try tauto.
  destruct Hc; discriminate.
Qed.

(** C4, amended: the mapping returned by [income_cat_proportions] has an
    entry for every category of the [income_cat] column, whether it
    occurs in the record set or not, and for nothing else; the entry is
    the category's count over the number of labelled rows, so a category
    with no occurrence is mapped to [0 / total] (zero; NaN when no row is
    labelled) and is not left out. *)
Theorem income_cat_proportions_all_categories (data : DataFrame)
    (categories : list Z) (values : list (option Z)) :
  columns data !! "income_cat" = Some (Category categories values) →
  ∃ props,
    income_cat_proportions data = Ok props ∧
    (∀ c, is_Some (props !! c) ↔ c ∈ categories) ∧
    (∀ c, c ∈ categories →
       props !! c = Some (F64.of_nat (Series.count c values)
                          / F64.of_nat (labelled_rows categories values))%float) ∧
    (∀ c, c ∈ categories → Series.count c values = 0%nat →
       props !! c = Some (0 / F64.of_nat (labelled_rows categories values))%float).
Proof.
  intros Hcol.
  destruct (value_counts_normalize_lookup categories values) as (props & Hprops & Hlk).
  exists props. split.
  { unfold income_cat_proportions, getitem. rewrite Hcol. exact Hprops. }
  split; [|split].
  - intros c. rewrite Hlk. case_decide; split; intros Hc;
      try assumption; try (eexists; reflexivity); try tauto.
    destruct Hc; discriminate.
  - intros c Hc. rewrite Hlk. rewrite decide_True by assumption. reflexivity.
  - intros c Hc H0. rewrite Hlk. rewrite decide_True by assumption.
    rewrite H0. reflexivity.
Qed.

Lemma income_cat_proportions_all_categories_witness :
  ∃ props,
    income_cat_proportions (labelled [Some 2; Some 2; Some 4]%Z) = Ok props ∧
    (∀ c, is_Some (props !! c) ↔ c ∈ income_labels) ∧
    (∀ c, c ∈ income_labels →
       props !! c = Some (F64.of_nat (Series.count c [Some 2; Some 2; Some 4]%Z)
                          / F64.of_nat (labelled_rows income_labels
                                          [Some 2; Some 2; Some 4]%Z))%float) ∧
    (∀ c, c ∈ income_labels → Series.count c [Some 2; Some 2; Some 4]%Z = 0%nat →
       props !! c = Some (0 / F64.of_nat (labelled_rows income_labels
                                            [Some 2; Some 2; Some 4]%Z))%float).
Proof.
  apply (income_cat_proportions_all_categories
           (labelled [Some 2; Some 2; Some 4]%Z) income_labels
           [Some 2; Some 2; Some 4]%Z).
  reflexivity.
Defined.

(** C4 as stated fails: in the one-row set with median income 2.0 only
    label 2 occurs, and the mapping still has an entry for label 1, the
    proportion 0. *)
Lemma absent_label_maps_to_zero :
  ∃ data props,
    add_income_category (housing [2]%float) = Ok data ∧
    columns data !! "income_cat" = Some (Category income_labels [Some 2%Z]) ∧
    income_cat_proportions data = Ok props ∧
    props !! 1%Z = Some 0%float ∧
    props !! 2%Z = Some 1%float.
Proof.
  eexists. eexists. split; [reflexivity|]. split; [reflexivity|].
  split; [reflexivity|]. split; reflexivity.
Qed.

(** ** [compare_income_category_proportions] *)

Lemma take_rows_fmap {A B} (f : A → B) (positions : list nat) (l : list A) :
  take_rows positions (f <$> l) = f <$> take_rows positions l.
Proof.
  unfold take_rows. induction positions as [|i positions IH]; [reflexivity|].
  cbn. rewrite list_lookup_fmap. destruct (l !! i); cbn; rewrite IH; reflexivity.
Qed.

Lemma take_rows_positions {A} (l : list A) (ps : list (A * nat)) :
  Forall (λ p, l !! p.2 = Some p.1) ps →
  take_rows ps.*2 l = ps.*1.
Proof.
  unfold take_rows. induction 1 as [|[a i] ps Hp _ IH]; [reflexivity|].
  cbn in *. rewrite Hp. cbn. rewrite IH. reflexivity.
Qed.

Lemma zip_seq_lookup {A} (l : list A) :
  Forall (λ p, l !! p.2 = Some p.1) (zip l (seq 0 (length l))).
Proof.
  apply Forall_forall. intros [a i] Hin.
  apply list_elem_of_lookup in Hin as [j Hj].
  apply lookup_zip_with_Some in Hj as (a' & i' & Heq & Ha & Hi).
  injection Heq as <- <-. apply lookup_seq in Hi as [-> _]. exact Ha.
Qed.

#[local] Instance key_le_total : Total Frame.key_le.
Proof. intros a b. unfold Frame.key_le. lia. Qed.

#[local] Instance key_le_trans : Transitive Frame.key_le.
Proof. intros a b c. unfold Frame.key_le. lia. Qed.

Lemma argsort_take (idx : list Z) :
  take_rows (Frame.argsort idx) idx =
    (merge_sort Frame.key_le (zip idx (seq 0 (length idx)))).*1.
Proof.
  apply take_rows_positions.
  rewrite merge_sort_Permutation. apply zip_seq_lookup.
Qed.

Lemma argsort_take_perm (idx : list Z) :
  take_rows (Frame.argsort idx) idx ≡ₚ idx.
Proof.
  rewrite argsort_take, merge_sort_Permutation.
  rewrite fst_zip; [reflexivity|]. rewrite length_seq. lia.
Qed.

Lemma argsort_take_sorted (idx : list Z) :
  Sorted Z.le (take_rows (Frame.argsort idx) idx).
Proof.
  rewrite argsort_take.
  apply (Sorted_fmap fst Frame.key_le Z.le); [intros x y Hxy; exact Hxy|].
  apply (Sorted_merge_sort Frame.key_le).
Qed.

Lemma Sorted_le_lt (l : list Z) : Sorted Z.le l → NoDup l → Sorted Z.lt l.
Proof.
  intros Hs Hn. apply Sorted_StronglySorted in Hs; [|intros ???; lia].
  apply StronglySorted_Sorted.
  induction Hs as [|x l _ IH Hx]; [constructor|].
  apply NoDup_cons in Hn as [Hnx Hn]. constructor; [auto|].
  apply Forall_forall. intros y Hy.
  pose proof (proj1 (Forall_forall _ _) Hx y Hy).
  assert (x ≠ y) by (intros ->; contradiction). lia.
Qed.

(** A zero overall proportion raises nothing: the deviation is then a
    NaN or an infinity. *)
Lemma percent_error_zero_overall (subset overall : float) :
  (overall =? 0)%float = true →
  F64.is_finite (percent_error subset overall) = false.
Proof.
  unfold F64.is_finite, percent_error.
  rewrite FloatAxioms.eqb_spec, mul_spec, sub_spec, div_spec.
  change (Prim2SF 0) with (S754_zero false).
  change (Prim2SF 1) with (S754_finite false 4503599627370496 (-52)).
  change (Prim2SF 100) with (S754_finite false 7036874417766400 (-46)).
  intros Hzero.
  destruct (Prim2SF overall) as [s|s| |s m e];
    try discriminate Hzero; try (destruct s; discriminate Hzero).
  destruct (Prim2SF subset) as [[|]|[|]| |[|] ? ?], s; reflexivity.
Qed.

Lemma of_dict_index_elem (data : list (string * Series)) (label : Z) :
  label ∈ index (Frame.of_dict data) ↔ ∃ s, s ∈ data.*2 ∧ is_Some (s !! label).
Proof.
  unfold Frame.of_dict. simpl. rewrite elem_of_elements, elem_of_union_list.
  split.
  - intros (X & HX & Hl). apply list_elem_of_fmap in HX as (s & -> & Hs).
    exists s. split; [assumption|]. apply elem_of_dom. assumption.
  - intros (s & Hs & Hl). exists (dom s). split.
    + apply list_elem_of_fmap. exists s. split; [reflexivity|assumption].
    + apply elem_of_dom. assumption.
Qed.

Lemma sort_index_sorted (data : list (string * Series)) :
  Sorted Z.lt (index (Frame.sort_index (Frame.of_dict data))).
Proof.
  unfold Frame.sort_index. simpl. apply Sorted_le_lt.
  - apply argsort_take_sorted.
  - rewrite argsort_take_perm. apply NoDup_elements.
Qed.

Lemma sort_index_column (data : list (string * Series)) (name : string) (s : Series) :
  (list_to_map data : gmap string Series) !! name = Some s →
  columns (Frame.sort_index (Frame.of_dict data)) !! name =
    Some (Float64 (proportion s <$> index (Frame.sort_index (Frame.of_dict data)))).
Proof.
  intros Hs. unfold Frame.sort_index. cbn [columns index].
  rewrite lookup_fmap.
  assert (Hcol : columns (Frame.of_dict data) !! name =
                 Some (Frame.reindex (index (Frame.of_dict data)) s)).
  { unfold Frame.of_dict. cbn [columns index].
    generalize (elements (⋃ (dom <$> data.*2) : gset Z)). intros idx.
    revert Hs. induction data as [|[n s'] data IH];
      [intros Hs; cbn in Hs; rewrite lookup_empty in Hs; discriminate|].
    rewrite fmap_cons, !list_to_map_cons. cbn [fst snd].
    destruct (decide (n = name)) as [->|Hne].
    - rewrite !lookup_insert_eq. intros [= ->]. reflexivity.
    - rewrite !lookup_insert_ne by assumption. exact IH. }
  rewrite Hcol. unfold Frame.reindex.
  cbn [fmap option_fmap option_map column_take].
  rewrite take_rows_fmap. reflexivity.
Qed.

Lemma getitem_lookup (df : DataFrame) (name : string) (c : column) :
  columns df !! name = Some c → getitem df name = Ok c.
Proof. unfold getitem. intros ->. reflexivity. Qed.

Lemma error_percent_column {A} (subset overall : A → float) (l : list A) :
  error_percent (Float64 (subset <$> l)) (Float64 (overall <$> l)) =
    Ok (Float64 ((λ a, percent_error (subset a) (overall a)) <$> l)).
Proof.
  unfold error_percent, percent_error. cbn.
  rewrite zip_with_fmap_l, zip_with_fmap_r, zip_with_diag.
  rewrite <- !list_fmap_compose. reflexivity.
Qed.

Lemma Sorted_lt_NoDup (l : list Z) : Sorted Z.lt l → NoDup l.
Proof.
  intros Hs. apply Sorted_StronglySorted in Hs; [|intros ???; lia].
  induction Hs as [|x l _ IH Hx]; constructor; [|assumption].
  intros Hin. pose proof (proj1 (Forall_forall _ _) Hx x Hin). lia.
Qed.

Lemma Sorted_lt_unique (l1 l2 : list Z) :
  Sorted Z.lt l1 → Sorted Z.lt l2 → (∀ x, x ∈ l1 ↔ x ∈ l2) → l1 = l2.
Proof.
  intros H1 H2 Hmem.
  apply (Sorted_unique_strong Z.lt); try assumption.
  - intros x y _ _ ??; lia.
  - apply NoDup_Permutation; auto using Sorted_lt_NoDup.
Qed.

(** The table as [Frame.of_dict] and [Frame.sort_index] build it from
    the three mappings. *)
Lemma compare_income_category_proportions_table
    (housing_data strat_test_set test_set : DataFrame)
    (c0 c1 c2 : list Z) (v0 v1 v2 : list (option Z)) :
  columns housing_data !! "income_cat" = Some (Category c0 v0) →
  columns strat_test_set !! "income_cat" = Some (Category c1 v1) →
  columns test_set !! "income_cat" = Some (Category c2 v2) →
  ∃ overall stratified random report,
    income_cat_proportions housing_data = Ok overall ∧
    income_cat_proportions strat_test_set = Ok stratified ∧
    income_cat_proportions test_set = Ok random ∧
    compare_income_category_proportions housing_data strat_test_set test_set
      = Ok report ∧
    Sorted Z.lt (index report) ∧
    (∀ label, label ∈ index report ↔ label ∈ c0 ∨ label ∈ c1 ∨ label ∈ c2) ∧
    columns report !! "Overall %" =
      Some (Float64 (proportion overall <$> index report)) ∧
    columns report !! "Stratified %" =
      Some (Float64 (proportion stratified <$> index report)) ∧
    columns report !! "Random %" =
      Some (Float64 (proportion random <$> index report)) ∧
    columns report !! "Strat. Error %" =
      Some (Float64 ((λ label, percent_error (proportion stratified label)
                                 (proportion overall label)) <$> index report)) ∧
    columns report !! "Rand. Error %" =
      Some (Float64 ((λ label, percent_error (proportion random label)
                                 (proportion overall label)) <$> index report)).
Proof.
  intros H0 H1 H2.
  destruct (income_cat_proportions_domain _ _ _ H0) as (overall & Ho & Hdo).
  destruct (income_cat_proportions_domain _ _ _ H1) as (stratified & Hs & Hds).
  destruct (income_cat_proportions_domain _ _ _ H2) as (random & Hr & Hdr).
  exists overall, stratified, random.
  set (data := [("Overall %", overall); ("Stratified %", stratified);
                ("Random %", random)]).
  set (table := Frame.sort_index (Frame.of_dict data)).
  assert (Hco : columns table !! "Overall %" =
                Some (Float64 (proportion overall <$> index table)))
    by (apply sort_index_column; reflexivity).
  assert (Hcs : columns table !! "Stratified %" =
                Some (Float64 (proportion stratified <$> index table)))
    by (apply sort_index_column; reflexivity).
  assert (Hcr : columns table !! "Random %" =
                Some (Float64 (proportion random <$> index table)))
    by (apply sort_index_column; reflexivity).
  eexists. split; [exact Ho|]. split; [exact Hs|]. split; [exact Hr|].
  split.
  { unfold compare_income_category_proportions. rewrite Ho, Hs, Hr.
    cbn [mbind result_bind]. fold data. fold table.
    rewrite (getitem_lookup _ _ _ Hcs), (getitem_lookup _ _ _ Hco).
    cbn [mbind result_bind].
    rewrite error_percent_column. cbn [mbind result_bind].
    rewrite (getitem_lookup _ "Random %" (Float64 (proportion random <$> index table)))
      by (cbn [setitem columns]; rewrite lookup_insert_ne by discriminate; exact Hcr).
    rewrite (getitem_lookup _ "Overall %" (Float64 (proportion overall <$> index table)))
      by (cbn [setitem columns]; rewrite lookup_insert_ne by discriminate; exact Hco).
    cbn [mbind result_bind].
    rewrite error_percent_column. cbn [mbind result_bind]. reflexivity. }
  cbn [index columns setitem].
  split; [apply sort_index_sorted|].
  split.
  { intros label.
    etrans; [apply (elem_of_Permutation_proper label), argsort_take_perm|].
    etrans; [apply of_dict_index_elem|].
    unfold data. cbn [fmap list_fmap snd].
    rewrite <- Hdo, <- Hds, <- Hdr. split.
    - intros (s & Hin & Hl). repeat (apply elem_of_cons in Hin as [->|Hin]); auto.
      apply not_elem_of_nil in Hin. destruct Hin.
    - intros [Hl|[Hl|Hl]]; eexists; (split; [|exact Hl]).
      + left.
      + right. left.
      + right. right. left. }
  split; [rewrite !lookup_insert_ne by discriminate; exact Hco|].
  split; [rewrite !lookup_insert_ne by discriminate; exact Hcs|].
  split; [rewrite !lookup_insert_ne by discriminate; exact Hcr|].
  split; [rewrite lookup_insert_ne by discriminate; apply lookup_insert_eq|].
  apply lookup_insert_eq.
Qed.


(** C2, amended: on three record sets whose [income_cat] columns have the
    same categories, in ascending order,
    [compare_income_category_proportions] never fails: it returns the
    table with one row for each category, in ascending order, whose
    first three columns are the three proportions and whose two error
    columns are [(subset / overall - 1) * 100] in binary64 arithmetic;
    where the overall proportion is zero that entry is a NaN or an
    infinity, and nothing is raised. *)
Theorem compare_income_category_proportions_report
    (housing_data strat_test_set test_set : DataFrame)
    (categories : list Z) (v0 v1 v2 : list (option Z)) :
  Sorted Z.lt categories →
  columns housing_data !! "income_cat" = Some (Category categories v0) →
  columns strat_test_set !! "income_cat" = Some (Category categories v1) →
  columns test_set !! "income_cat" = Some (Category categories v2) →
  ∃ overall stratified random report,
    income_cat_proportions housing_data = Ok overall ∧
    income_cat_proportions strat_test_set = Ok stratified ∧
    income_cat_proportions test_set = Ok random ∧
    compare_income_category_proportions housing_data strat_test_set test_set
      = Ok report ∧
    index report = categories ∧
    columns report !! "Overall %" =
      Some (Float64 (proportion overall <$> categories)) ∧
    columns report !! "Stratified %" =
      Some (Float64 (proportion stratified <$> categories)) ∧
    columns report !! "Random %" =
      Some (Float64 (proportion random <$> categories)) ∧
    columns report !! "Strat. Error %" =
      Some (Float64 ((λ label, percent_error (proportion stratified label)
                                 (proportion overall label)) <$> categories)) ∧
    columns report !! "Rand. Error %" =
      Some (Float64 ((λ label, percent_error (proportion random label)
                                 (proportion overall label)) <$> categories)) ∧
    (∀ subset label, (proportion overall label =? 0)%float = true →
       F64.is_finite (percent_error subset (proportion overall label)) = false).
Proof.
  intros Hsorted H0 H1 H2.
  destruct (compare_income_category_proportions_table _ _ _ _ _ _ _ _ _ H0 H1 H2)
    as (overall & stratified & random & report
        & Ho & Hs & Hr & Hrep & Hsrt & Hmem & Hco & Hcs & Hcr & Hse & Hre).
  assert (Hidx : index report = categories).
  { apply Sorted_lt_unique; [assumption|assumption|].
    intros x. rewrite Hmem. tauto. }
  rewrite Hidx in Hco, Hcs, Hcr, Hse, Hre.
  exists overall, stratified, random, report.
  repeat (split; [assumption|]).
  intros subset label. apply percent_error_zero_overall.
Qed.

Lemma compare_income_category_proportions_report_witness :
  ∃ overall stratified random report,
    income_cat_proportions (labelled [Some 1; Some 2; Some 2; Some 3]%Z) = Ok overall ∧
    income_cat_proportions (labelled [Some 2]%Z) = Ok stratified ∧
    income_cat_proportions (labelled [Some 3]%Z) = Ok random ∧
    compare_income_category_proportions
      (labelled [Some 1; Some 2; Some 2; Some 3]%Z) (labelled [Some 2]%Z)
      (labelled [Some 3]%Z) = Ok report ∧
    index report = income_labels ∧
    columns report !! "Overall %" =
      Some (Float64 (proportion overall <$> income_labels)) ∧
    columns report !! "Stratified %" =
      Some (Float64 (proportion stratified <$> income_labels)) ∧
    columns report !! "Random %" =
      Some (Float64 (proportion random <$> income_labels)) ∧
    columns report !! "Strat. Error %" =
      Some (Float64 ((λ label, percent_error (proportion stratified label)
                                 (proportion overall label)) <$> income_labels)) ∧
    columns report !! "Rand. Error %" =
      Some (Float64 ((λ label, percent_error (proportion random label)
                                 (proportion overall label)) <$> income_labels)) ∧
    (∀ subset label, (proportion overall label =? 0)%float = true →
       F64.is_finite (percent_error subset (proportion overall label)) = false).
Proof.
  apply (compare_income_category_proportions_report
           (labelled [Some 1; Some 2; Some 2; Some 3]%Z) (labelled [Some 2]%Z)
           (labelled [Some 3]%Z) income_labels
           [Some 1; Some 2; Some 2; Some 3]%Z [Some 2]%Z [Some 3]%Z);
    [repeat constructor; reflexivity|reflexivity..].
Defined.

(** C2 as stated fails: label 5 has overall proportion zero in the full
    set below, and the comparison returns its table, with an infinite
    deviation for the subset that holds label 5 and NaN for the one that
    does not; no division error is raised. *)
Lemma zero_overall_proportion_no_error :
  ∃ overall report,
    income_cat_proportions (labelled [Some 1; Some 2]%Z) = Ok overall ∧
    overall !! 5%Z = Some 0%float ∧
    compare_income_category_proportions
      (labelled [Some 1; Some 2]%Z) (labelled [Some 5]%Z) (labelled [Some 1]%Z)
      = Ok report ∧
    index report = [1; 2; 3; 4; 5]%Z ∧
    columns report !! "Overall %" = Some (Float64 [0.5; 0.5; 0; 0; 0]%float) ∧
    columns report !! "Strat. Error %" =
      Some (Float64 [-100; -100; nan; nan; infinity]%float) ∧
    columns report !! "Rand. Error %" =
      Some (Float64 [100; -100; nan; nan; nan]%float) ∧
    compare_income_category_proportions
      (labelled [Some 1; Some 2]%Z) (labelled [Some 5]%Z) (labelled [Some 1]%Z)
      ≠ Raise ZeroDivisionError.
Proof.
  eexists. eexists. split; [reflexivity|]. split; [reflexivity|].
  split; [vm_compute; reflexivity|]. split; [reflexivity|].
  split; [reflexivity|]. split; [reflexivity|]. split; [reflexivity|].
  vm_compute. discriminate.
Qed.

(** ** Rounding of binary64 products

    What the script needs of IEEE multiplication, from its definition in
    [SpecFloat]: the rounded product of a row count and a ratio below one
    is at most the row count. *)

Module Rounding.
#[local] Open Scope Z_scope.

Lemma digits2_pos_bounds (p : positive) :
  2 ^ (Z.pos (digits2_pos p) - 1) ≤ Z.pos p < 2 ^ Z.pos (digits2_pos p).
Proof.
  induction p as [p IH|p IH|]; simpl digits2_pos.
  - rewrite Pos2Z.inj_succ.
    replace (Z.succ (Z.pos (digits2_pos p)) - 1) with (Z.succ (Z.pos (digits2_pos p) - 1)) by lia.
    rewrite !Z.pow_succ_r by lia. lia.
  - rewrite Pos2Z.inj_succ.
    replace (Z.succ (Z.pos (digits2_pos p)) - 1) with (Z.succ (Z.pos (digits2_pos p) - 1)) by lia.
    rewrite !Z.pow_succ_r by lia. lia.
  - simpl. lia.
Qed.

Lemma digits2_pos_le (p : positive) (d : Z) :
  0 ≤ d → Z.pos p < 2 ^ d → Z.pos (digits2_pos p) ≤ d.
Proof.
  intros Hd Hp. destruct (Z.le_gt_cases (Z.pos (digits2_pos p)) d) as [|Hgt]; [assumption|].
  pose proof (digits2_pos_bounds p) as [Hlo _].
  assert (2 ^ d ≤ 2 ^ (Z.pos (digits2_pos p) - 1)) by (apply Z.pow_le_mono_r; lia).
  lia.
Qed.

Lemma shr_1_m (mrs : shr_record) :
  0 ≤ shr_m mrs → shr_m (shr_1 mrs) = shr_m mrs / 2.
Proof.
  destruct mrs as [m r s]. cbn [shr_m]. intros Hm.
  destruct m as [|[p|p|]|p]; cbn [shr_1 shr_m]; try lia; try reflexivity.
  - apply (Z.div_unique _ _ _ 1); lia.
  - apply (Z.div_unique _ _ _ 0); lia.
Qed.

Lemma shr_iter_m (k : positive) (mrs : shr_record) :
  0 ≤ shr_m mrs → shr_m (SpecFloat.iter_pos shr_1 k mrs) = shr_m mrs / 2 ^ Z.pos k.
Proof.
  revert mrs. induction k as [k IH|k IH|]; intros mrs Hm; simpl SpecFloat.iter_pos.
  - assert (Hp : 0 < 2 ^ Z.pos k) by (apply Z.pow_pos_nonneg; lia).
    assert (H1 : 0 ≤ shr_m (shr_1 mrs)) by (rewrite shr_1_m by lia; apply Z.div_pos; lia).
    assert (H2 : 0 ≤ shr_m (SpecFloat.iter_pos shr_1 k (shr_1 mrs)))
      by (rewrite IH by lia; apply Z.div_pos; lia).
    assert (Hpow : 2 ^ Z.pos k~1 = 2 * 2 ^ Z.pos k * 2 ^ Z.pos k).
    { replace (Z.pos k~1) with (1 + Z.pos k + Z.pos k) by lia.
      rewrite !Z.pow_add_r by lia. reflexivity. }
    rewrite IH, IH, shr_1_m by lia.
    rewrite !Z.div_div by lia. rewrite Hpow.
    first [reflexivity | f_equal; lia].
  - assert (Hp : 0 < 2 ^ Z.pos k) by (apply Z.pow_pos_nonneg; lia).
    assert (H2 : 0 ≤ shr_m (SpecFloat.iter_pos shr_1 k mrs))
      by (rewrite IH by lia; apply Z.div_pos; lia).
    assert (Hpow : 2 ^ Z.pos k~0 = 2 ^ Z.pos k * 2 ^ Z.pos k).
    { replace (Z.pos k~0) with (Z.pos k + Z.pos k) by lia.
      rewrite !Z.pow_add_r by lia. reflexivity. }
    rewrite IH, IH by lia.
    rewrite !Z.div_div by lia. rewrite Hpow.
    first [reflexivity | f_equal; lia].
  - rewrite shr_1_m by lia. reflexivity.
Qed.

Lemma round_nearest_even_bounds (m : Z) (l : location) :
  m ≤ round_nearest_even m l ≤ m + 1.
Proof.
  destruct l as [|[| |]]; simpl; try lia. destruct (Z.even m); lia.
Qed.

(** [shr_fexp] on a non-negative mantissa: the exponent becomes
    [max e (fexp (digits m + e))] and the mantissa is divided accordingly. *)
Lemma shr_fexp_spec (m e : Z) (l : location) (mrs : shr_record) (e' : Z) :
  0 ≤ m →
  shr_fexp prec emax m e l = (mrs, e') →
  e' = e + Z.max (fexp prec emax (Zdigits2 m + e) - e) 0 ∧
  shr_m mrs = m / 2 ^ Z.max (fexp prec emax (Zdigits2 m + e) - e) 0 ∧
  (fexp prec emax (Zdigits2 m + e) - e ≤ 0 → loc_of_shr_record mrs = l).
Proof.
  intros Hm. unfold shr_fexp, shr.
  assert (Hrec : shr_m (shr_record_of_loc m l) = m) by (destruct l as [|[| |]]; reflexivity).
  assert (Hloc : loc_of_shr_record (shr_record_of_loc m l) = l)
    by (destruct l as [|[| |]]; reflexivity).
  destruct (fexp prec emax (Zdigits2 m + e) - e) as [|k|k] eqn:Hk; intros [= <- <-].
  - split; [lia|]. split; [rewrite Hrec, Z.div_1_r; reflexivity|]. auto.
  - split; [lia|]. split; [|lia].
    rewrite shr_iter_m by (rewrite Hrec; lia). rewrite Hrec. reflexivity.
  - split; [lia|]. split; [rewrite Hrec, Z.div_1_r; reflexivity|]. auto.
Qed.

Lemma Zdigits2_le (m d : Z) : 0 ≤ m → 0 ≤ d → m < 2 ^ d → Zdigits2 m ≤ d.
Proof.
  intros Hm Hd Hlt. destruct m as [|p|p]; simpl; [lia| |lia].
  apply digits2_pos_le; assumption.
Qed.

Lemma digits2_pos_ge (p : positive) (b : Z) :
  0 ≤ b → 2 ^ b ≤ Z.pos p → b + 1 ≤ Z.pos (digits2_pos p).
Proof.
  intros Hb Hp. pose proof (digits2_pos_bounds p) as [_ Hhi].
  assert (2 ^ b < 2 ^ Z.pos (digits2_pos p)) by lia.
  apply Z.pow_lt_mono_r_iff in H; lia.
Qed.

(** The rounded product of a 53-bit mantissa [mz·2^ez] (a whole number
    below 2^53) and a binary64 value [mr·2^er] below one does not exceed
    the first factor. *)
Lemma mul_round_le (mz mr : positive) (ez er : Z) :
  2 ^ 52 ≤ Z.pos mz < 2 ^ 53 → -52 ≤ ez ≤ 0 →
  Z.pos mr < 2 ^ 53 → -1074 ≤ er ≤ -53 →
  ∃ t, F64.SFtrunc (binary_round_aux prec emax false (Z.pos (mz * mr)) (ez + er) loc_Exact)
         = Some t ∧
       0 ≤ t ∧ t * 2 ^ (- ez) ≤ Z.pos mz ∧
       (binary_round_aux prec emax false (Z.pos (mz * mr)) (ez + er) loc_Exact
          = S754_zero false ∨
        ∃ m e, binary_round_aux prec emax false (Z.pos (mz * mr)) (ez + er) loc_Exact
                 = S754_finite false m e).
Proof.
  intros Hmz Hez Hmr Her.
  set (m := Z.pos (mz * mr)). set (e := ez + er).
  assert (Hm : 2 ^ 52 ≤ m < 2 ^ 106).
  { unfold m. rewrite Pos2Z.inj_mul. change (2 ^ 106) with (2 ^ 53 * 2 ^ 53). nia. }
  assert (Hd : 53 ≤ Zdigits2 m ≤ 106).
  { unfold m. simpl Zdigits2. split.
    - apply (digits2_pos_ge _ 52); [lia|]. apply Hm.
    - apply digits2_pos_le; [lia|]. apply Hm. }
  unfold binary_round_aux.
  destruct (shr_fexp prec emax m e loc_Exact) as [mrs1 e1] eqn:H1.
  apply shr_fexp_spec in H1 as (He1 & Hm1 & _); [|lia].
  set (m2 := round_nearest_even (shr_m mrs1) (loc_of_shr_record mrs1)).
  pose proof (round_nearest_even_bounds (shr_m mrs1) (loc_of_shr_record mrs1)) as Hm2.
  fold m2 in Hm2.
  set (k1 := Z.max (fexp prec emax (Zdigits2 m + e) - e) 0) in *.
  assert (Hk1 : Zdigits2 m - 53 ≤ k1 ≤ - er ∧ 0 ≤ k1).
  { unfold k1, fexp, SpecFloat.emin, prec, emax, e. lia. }
  assert (Hp1 : 0 < 2 ^ k1) by (apply Z.pow_pos_nonneg; lia).
  assert (Hm1nn : 0 ≤ shr_m mrs1) by (rewrite Hm1; apply Z.div_pos; lia).
  assert (Hm1lt : shr_m mrs1 < 2 ^ 53).
  { rewrite Hm1. apply Z.div_lt_upper_bound; [lia|].
    assert (2 ^ Zdigits2 m ≤ 2 ^ k1 * 2 ^ 53).
    { rewrite <- Z.pow_add_r by lia. apply Z.pow_le_mono_r; lia. }
    assert (m < 2 ^ Zdigits2 m).
    { unfold m. simpl. apply digits2_pos_bounds. }
    lia. }
  (* the key bound: one more than the truncated mantissa still fits *)
  assert (Hkey : m2 * 2 ^ k1 ≤ Z.pos mz * 2 ^ (- er)).
  { assert (Hsplit : 2 ^ (- er) = 2 ^ (- er - k1) * 2 ^ k1).
    { rewrite <- Z.pow_add_r by lia. f_equal. lia. }
    assert (0 < 2 ^ (- er - k1)) by (apply Z.pow_pos_nonneg; lia).
    assert (2 ^ 53 ≤ 2 ^ (- er)) by (apply Z.pow_le_mono_r; lia).
    assert (Hlt : shr_m mrs1 < Z.pos mz * 2 ^ (- er - k1)).
    { rewrite Hm1. apply Z.div_lt_upper_bound; [lia|].
      unfold m. rewrite Pos2Z.inj_mul.
      replace (2 ^ k1 * (Z.pos mz * 2 ^ (- er - k1)))
        with (Z.pos mz * 2 ^ (- er)) by (rewrite Hsplit; ring).
      nia. }
    rewrite Hsplit. nia. }
  destruct (shr_fexp prec emax m2 e1 loc_Exact) as [mrs2 e2] eqn:H2.
  apply shr_fexp_spec in H2 as (He2 & Hm3 & _); [|lia].
  set (k2 := Z.max (fexp prec emax (Zdigits2 m2 + e1) - e1) 0) in *.
  assert (Hd2 : Zdigits2 m2 ≤ 54).
  { apply Zdigits2_le; [lia|lia|]. change (2 ^ 54) with (2 * 2 ^ 53). lia. }
  assert (He1b : e1 ≤ 0).
  { rewrite He1. unfold k1, fexp, SpecFloat.emin, prec, emax, e. lia. }
  assert (Hk2 : 0 ≤ k2 ∧ e2 ≤ 1).
  { rewrite He2. unfold k2, fexp, SpecFloat.emin, prec, emax. lia. }
  assert (Hp2 : 0 < 2 ^ k2) by (apply Z.pow_pos_nonneg; lia).
  assert (Hm3b : 0 ≤ shr_m mrs2 ∧ shr_m mrs2 * 2 ^ k2 ≤ m2).
  { rewrite Hm3. split; [apply Z.div_pos; lia|].
    rewrite Z.mul_comm. apply Z.mul_div_le. lia. }
  destruct (shr_m mrs2) as [|m3|m3] eqn:Hm3e; [| |lia].
  { exists 0. simpl. split; [reflexivity|]. split; [lia|]. split; [lia|]. left. reflexivity. }
  replace (e2 <=? emax - prec) with true
    by (symmetry; apply Z.leb_le; unfold emax, prec; lia).
  eexists. split; [reflexivity|]. cbn [cond_Zopp].
  assert (HB : 0 < 2 ^ (- er)) by (apply Z.pow_pos_nonneg; lia).
  assert (HA : 0 < 2 ^ (- ez)) by (apply Z.pow_pos_nonneg; lia).
  assert (Hchain : Z.pos m3 * 2 ^ k2 * 2 ^ k1 ≤ Z.pos mz * 2 ^ (- er)) by nia.
  assert (He2e : e2 = k1 + k2 + ez + er) by (unfold e in *; lia).
  split; [|split; [|right; eauto]].
  - destruct (Z.leb_spec 0 e2); [|apply Z.div_pos; [lia|apply Z.pow_pos_nonneg; lia]].
    assert (0 ≤ 2 ^ e2) by (apply Z.pow_nonneg; lia). nia.
  - destruct (Z.leb_spec 0 e2) as [Hpos|Hneg].
    + assert (Hpw : 2 ^ k2 * 2 ^ k1 = 2 ^ e2 * 2 ^ (- ez) * 2 ^ (- er)).
      { rewrite <- !Z.pow_add_r by lia. f_equal. lia. }
      assert (0 < 2 ^ e2) by (apply Z.pow_pos_nonneg; lia).
      nia.
    + assert (Hpw : 2 ^ (- e2) * 2 ^ k2 * 2 ^ k1 = 2 ^ (- ez) * 2 ^ (- er)).
      { rewrite <- !Z.pow_add_r by lia. f_equal. lia. }
      assert (Hpe : 0 < 2 ^ (- e2)) by (apply Z.pow_pos_nonneg; lia).
      assert (Ht : Z.pos m3 / 2 ^ (- e2) * 2 ^ (- e2) ≤ Z.pos m3)
        by (rewrite Z.mul_comm; apply Z.mul_div_le; lia).
      set (t := Z.pos m3 / 2 ^ (- e2)) in *.
      assert (Hstep : t * 2 ^ (- e2) * (2 ^ k2 * 2 ^ k1) ≤ Z.pos m3 * (2 ^ k2 * 2 ^ k1))
        by (apply Z.mul_le_mono_nonneg_r; nia).
      assert (Hall : t * 2 ^ (- ez) * 2 ^ (- er) ≤ Z.pos mz * 2 ^ (- er)).
      { replace (t * 2 ^ (- ez) * 2 ^ (- er))
          with (t * (2 ^ (- ez) * 2 ^ (- er))) by ring.
        rewrite <- Hpw. nia. }
      apply (Z.mul_le_mono_pos_r _ _ (2 ^ (- er))); assumption.
Qed.

Lemma pos_iter_xO (p k : positive) :
  Z.pos (Pos.iter xO p k) = Z.pos p * 2 ^ Z.pos k.
Proof.
  induction k as [|k IH] using Pos.peano_ind.
  - simpl. lia.
  - rewrite Pos.iter_succ, Pos2Z.inj_xO, IH, Pos2Z.inj_succ, Z.pow_succ_r by lia. ring.
Qed.

(** A 53-bit mantissa with an exponent in range is its own rounding. *)
Lemma binary_round_aux_canonical (s : bool) (m : positive) (e : Z) :
  2 ^ 52 ≤ Z.pos m < 2 ^ 53 → -1074 ≤ e ≤ 971 →
  binary_round_aux prec emax s (Z.pos m) e loc_Exact = S754_finite s m e.
Proof.
  intros Hm He.
  assert (Hd : Zdigits2 (Z.pos m) = 53).
  { simpl. pose proof (digits2_pos_ge m 52 ltac:(lia) (proj1 Hm)).
    pose proof (digits2_pos_le m 53 ltac:(lia) (proj2 Hm)). lia. }
  unfold binary_round_aux.
  destruct (shr_fexp prec emax (Z.pos m) e loc_Exact) as [mrs1 e1] eqn:H1.
  apply shr_fexp_spec in H1 as (He1 & Hm1 & Hl1); [|lia].
  assert (Hk : fexp prec emax (Zdigits2 (Z.pos m) + e) - e = 0)
    by (rewrite Hd; unfold fexp, SpecFloat.emin, prec, emax; lia).
  rewrite Hk in *. rewrite Hl1 by lia. change (Z.max 0 0) with 0 in *.
  rewrite Z.div_1_r in Hm1. rewrite Hm1. cbn [round_nearest_even].
  replace e1 with e by lia.
  destruct (shr_fexp prec emax (Z.pos m) e loc_Exact) as [mrs2 e2] eqn:H2.
  apply shr_fexp_spec in H2 as (He2 & Hm2 & _); [|lia].
  rewrite Hk in *. change (Z.max 0 0) with 0 in *. rewrite Z.div_1_r in Hm2.
  rewrite Hm2. replace e2 with e by lia.
  replace (e <=? emax - prec) with true
    by (symmetry; apply Z.leb_le; unfold emax, prec; lia).
  reflexivity.
Qed.

(** [float(n)] for [0 < n < 2^53] is [n] itself, with a 53-bit mantissa. *)
Lemma of_Z_pos (p : positive) :
  Z.pos p < 2 ^ 53 →
  ∃ mz ez, Prim2SF (F64.of_Z (Z.pos p)) = S754_finite false mz ez ∧
           2 ^ 52 ≤ Z.pos mz < 2 ^ 53 ∧ -52 ≤ ez ≤ 0 ∧
           Z.pos mz = Z.pos p * 2 ^ (- ez).
Proof.
  intros Hp. unfold F64.of_Z.
  pose proof (digits2_pos_bounds p) as Hb.
  pose proof (digits2_pos_le p 53 ltac:(lia) Hp) as Hd.
  set (d := Z.pos (digits2_pos p)) in *.
  assert (Hd1 : 1 ≤ d) by (unfold d; lia).
  assert (Hnorm : ∃ mz ez,
    binary_normalize prec emax (Z.pos p) 0 false = S754_finite false mz ez ∧
    2 ^ 52 ≤ Z.pos mz < 2 ^ 53 ∧ -52 ≤ ez ≤ 0 ∧ Z.pos mz = Z.pos p * 2 ^ (- ez)).
  { unfold binary_normalize, binary_round. fold d.
    replace (fexp prec emax (d + 0)) with (d - 53)
      by (unfold fexp, SpecFloat.emin, prec, emax; lia).
    unfold shl_align. destruct (d - 53 - 0) as [|k|k] eqn:Hk; [|lia|].
    - exists p, 0. rewrite binary_round_aux_canonical.
      + split; [reflexivity|]. replace d with 53 in * by lia. simpl Z.opp.
        change (2 ^ (53 - 1)) with (2 ^ 52) in Hb. lia.
      + replace d with 53 in * by lia. change (2 ^ (53 - 1)) with (2 ^ 52) in Hb. lia.
      + lia.
    - assert (Hval : Z.pos (Pos.iter xO p k) = Z.pos p * 2 ^ (- (d - 53))).
      { rewrite pos_iter_xO. f_equal. f_equal. lia. }
      assert (Hrange : 2 ^ 52 ≤ Z.pos (Pos.iter xO p k) < 2 ^ 53).
      { rewrite Hval.
        assert (H52 : 2 ^ 52 = 2 ^ (d - 1) * 2 ^ (- (d - 53)))
          by (rewrite <- Z.pow_add_r by lia; f_equal; lia).
        assert (H53 : 2 ^ 53 = 2 ^ d * 2 ^ (- (d - 53)))
          by (rewrite <- Z.pow_add_r by lia; f_equal; lia).
        assert (0 < 2 ^ (- (d - 53))) by (apply Z.pow_pos_nonneg; lia).
        rewrite H52, H53. nia. }
      exists (Pos.iter xO p k), (d - 53).
      rewrite binary_round_aux_canonical by (assumption || lia).
      split; [reflexivity|]. split; [assumption|]. split; [lia|assumption]. }
  destruct Hnorm as (mz & ez & Hn & Hmz & Hez & Hv).
  exists mz, ez. rewrite Hn. split; [|auto].
  apply Prim2SF_SF2Prim. unfold SpecFloat.valid_binary, bounded, canonical_mantissa.
  assert (Hdz : Z.pos (digits2_pos mz) = 53).
  { pose proof (digits2_pos_ge mz 52 ltac:(lia) (proj1 Hmz)).
    pose proof (digits2_pos_le mz 53 ltac:(lia) (proj2 Hmz)). lia. }
  rewrite Hdz. apply andb_true_iff. split.
  - apply Z.eqb_eq. unfold fexp, SpecFloat.emin, prec, emax. lia.
  - apply Z.leb_le. unfold prec, emax. lia.
Qed.

(** Comparison with the constant one, [2^52 · 2^-52]. The mantissa
    comparison is kept folded: unfolding it against the constant is
    exponential. *)
Lemma SFltb_one (m : positive) (e : Z) :
  SFltb (S754_finite false m e) (S754_finite false 4503599627370496 (-52)) = true →
  e < -52 ∨ (e = -52 ∧ Z.pos m < 2 ^ 52).
Proof.
  unfold SFltb. cbn [SFcompare].
  destruct (e ?= -52) eqn:He.
  - destruct (Pos.compare_cont Eq m 4503599627370496) eqn:Hm; try discriminate.
    intros _. right. apply Z.compare_eq_iff in He.
    apply (proj1 (Pos.compare_lt_iff m 4503599627370496)) in Hm.
    split; [assumption|]. apply Pos2Z.pos_lt_pos in Hm. exact Hm.
  - intros _. left. apply Z.compare_lt_iff in He. assumption.
  - discriminate.
Qed.

(** The mantissa of a valid binary64 value has at most 53 bits, and its
    exponent is at least -1074. *)
Lemma valid_binary_bounds (s : bool) (m : positive) (e : Z) :
  SpecFloat.valid_binary prec emax (S754_finite s m e) = true →
  Z.pos m < 2 ^ 53 ∧ -1074 ≤ e ∧
  (Z.pos (digits2_pos m) < 53 → e = -1074).
Proof.
  unfold SpecFloat.valid_binary, bounded, canonical_mantissa. intros Hv.
  apply andb_true_iff in Hv as [Hc Hb]. apply Z.eqb_eq in Hc.
  unfold fexp, SpecFloat.emin, prec, emax in Hc.
  pose proof (digits2_pos_bounds m) as [Hlo Hhi].
  assert (Hd : Z.pos (digits2_pos m) ≤ 53) by lia.
  assert (2 ^ Z.pos (digits2_pos m) ≤ 2 ^ 53) by (apply Z.pow_le_mono_r; lia).
  split; [lia|]. split; lia.
Qed.

(** A binary64 value strictly between 0 and 1. *)
Lemma ratio_decode (r : float) :
  (0 <? r)%float = true → (r <? 1)%float = true →
  ∃ mr er, Prim2SF r = S754_finite false mr er ∧
           Z.pos mr < 2 ^ 53 ∧ -1074 ≤ er ≤ -53.
Proof.
  rewrite !FloatAxioms.ltb_spec.
  change (Prim2SF 0) with (S754_zero false).
  change (Prim2SF 1) with (S754_finite false 4503599627370496 (-52)).
  pose proof (Prim2SF_valid r) as Hv.
  destruct (Prim2SF r) as [s|s| |s mr er].
  - intros H0. destruct s; discriminate H0.
  - intros H0 H1. destruct s; discriminate.
  - discriminate.
  - intros H0 H1. destruct s; [discriminate H0|]. clear H0.
    apply SFltb_one in H1.
    apply valid_binary_bounds in Hv as (Hm & He & Hsub).
    exists mr, er. split; [reflexivity|]. split; [assumption|].
    destruct H1 as [Hlt|[Heq Hm52]]; [lia|].
    exfalso.
    assert (Z.pos (digits2_pos mr) ≤ 52) by (apply digits2_pos_le; lia).
    lia.
Qed.

(** [int(n * r)] for a row count below 2^53 and a ratio in (0, 1): it is
    defined, and lies between 0 and [n]. *)
Lemma py_int_count_times_ratio (n : nat) (r : float) :
  Z.of_nat n < 2 ^ 53 →
  (0 <? r)%float = true → (r <? 1)%float = true →
  ∃ k, F64.py_int (F64.of_nat n * r)%float = Ok k ∧ 0 ≤ k ≤ Z.of_nat n ∧
       ((F64.of_nat n * r <? 1)%float = true → k = 0).
Proof.
  intros Hn H0 H1.
  destruct (ratio_decode r H0 H1) as (mr & er & Hr & Hmr & Her).
  assert (Hprod : ∃ k, F64.SFtrunc (Prim2SF (F64.of_nat n * r)%float) = Some k ∧
            0 ≤ k ≤ Z.of_nat n ∧
            (Prim2SF (F64.of_nat n * r)%float = S754_zero false ∨
             ∃ m e, Prim2SF (F64.of_nat n * r)%float = S754_finite false m e)).
  { rewrite mul_spec, Hr. unfold F64.of_nat.
    destruct (Z.of_nat n) as [|p|p] eqn:Hp; [| |lia].
    - exists 0. unfold F64.of_Z. rewrite Prim2SF_SF2Prim by reflexivity.
      simpl. split; [reflexivity|]. split; [lia|]. left. reflexivity.
    - destruct (of_Z_pos p Hn) as (mz & ez & Hz & Hmz & Hez & Hv).
      rewrite Hz. unfold SF64mul, SFmul. cbn [xorb].
      destruct (mul_round_le mz mr ez er Hmz Hez Hmr Her) as (t & Ht & Ht0 & Htn & Hshape).
      exists t. split; [exact Ht|]. split; [|exact Hshape].
      split; [lia|].
      assert (0 < 2 ^ (- ez)) by (apply Z.pow_pos_nonneg; lia).
      rewrite Hv in Htn. nia. }
  destruct Hprod as (k & Hk & Hkn & Hshape).
  exists k. split; [|split; [exact Hkn|]].
  - unfold F64.py_int. destruct Hshape as [Hz|(m & e & Hf)].
    + rewrite Hz in *. simpl in *. congruence.
    + rewrite Hf in *. rewrite Hk. reflexivity.
  - rewrite FloatAxioms.ltb_spec.
    change (Prim2SF 1) with (S754_finite false 4503599627370496 (-52)).
    pose proof (Prim2SF_valid (F64.of_nat n * r)%float) as Hv.
    destruct Hshape as [Hz|(m & e & Hf)].
    + rewrite Hz in Hk. simpl in Hk. intros _. congruence.
    + rewrite Hf in *. intros Hlt. apply SFltb_one in Hlt.
      apply valid_binary_bounds in Hv as (Hm53 & _ & _).
      cbn [F64.SFtrunc cond_Zopp] in Hk. injection Hk as <-.
      assert (He : e < 0 ∧ Z.pos m < 2 ^ (- e)).
      { destruct Hlt as [Hl|[-> Hm52]].
        - split; [lia|].
          assert (2 ^ 53 ≤ 2 ^ (- e)) by (apply Z.pow_le_mono_r; lia). lia.
        - split; [lia|]. exact Hm52. }
      destruct He as [He Hml].
      destruct (Z.leb_spec 0 e); [lia|]. apply Z.div_small. lia.
Qed.



End Rounding.

(** ** The truncation of a binary64 product is its floor *)

Module Floor.
#[local] Open Scope Z_scope.








End Floor.

(** ** [np.random.permutation] and [shuffle_and_split_data] *)

Section shuffle_facts.
Context `{BitGenerator}.

Lemma insert_head_Permutation {A} (l : list A) (j : nat) (a b : A) :
  l !! j = Some b → b :: <[j := a]> l ≡ₚ a :: l.
Proof.
  revert j. induction l as [|y l IH]; intros [|j] Hj; try discriminate.
  - injection Hj as ->. apply perm_swap.
  - cbn [insert list_insert]. simpl in Hj.
    rewrite (perm_swap y b), (IH j Hj). apply perm_swap.
Qed.

Lemma swap_Permutation {A} (buf : list A) (i j : nat) :
  RandomState.swap buf i j ≡ₚ buf.
Proof.
  unfold RandomState.swap.
  destruct (buf !! i) as [a|] eqn:Hi; [|reflexivity].
  destruct (buf !! j) as [b|] eqn:Hj; [|reflexivity].
  revert i j Hi Hj. induction buf as [|x buf IH]; intros [|i] [|j] Hi Hj;
    try discriminate; simpl in Hi, Hj.
  - injection Hi as ->. injection Hj as ->. reflexivity.
  - injection Hi as ->. cbn [insert list_insert].
    apply insert_head_Permutation. assumption.
  - injection Hj as ->. cbn [insert list_insert].
    apply insert_head_Permutation. assumption.
  - cbn [insert list_insert]. constructor. apply IH; assumption.
Qed.

Lemma shuffle_raw_Permutation {A} (i : nat) (buf : list A) (s : rng_state) :
  (RandomState.shuffle_raw i buf s).1 ≡ₚ buf.
Proof.
  revert buf s. induction i as [|i IH]; intros buf s; [reflexivity|].
  cbn [RandomState.shuffle_raw]. destruct (rng_interval (S i) s) as [j s'].
  rewrite IH. apply swap_Permutation.
Qed.

(** The shuffled array holds the items of the input, each as often. *)
Lemma shuffle_Permutation {A} (x : list A) (s : rng_state) :
  (RandomState.shuffle x s).1 ≡ₚ x.
Proof. apply shuffle_raw_Permutation. Qed.

Lemma permutation_Permutation (n : nat) (s : rng_state) :
  (RandomState.permutation n s).1 ≡ₚ seq 0 n.
Proof. apply shuffle_Permutation. Qed.

End shuffle_facts.

Lemma take_rows_length {A} (positions : list nat) (l : list A) :
  Forall (λ i, i < length l)%nat positions →
  length (take_rows positions l) = length positions.
Proof.
  unfold take_rows. induction 1 as [|i positions Hi _ IH]; [reflexivity|].
  cbn. destruct (lookup_lt_is_Some_2 l i Hi) as [a ->]. cbn. rewrite IH. reflexivity.
Qed.

Lemma take_rows_app {A} (p q : list nat) (l : list A) :
  take_rows (p ++ q) l = take_rows p l ++ take_rows q l.
Proof. apply omap_app. Qed.


Lemma take_rows_seq_app {A} (pre l : list A) :
  take_rows (seq (length pre) (length l)) (pre ++ l) = l.
Proof.
  revert pre. induction l as [|a l IH]; intros pre; [reflexivity|].
  cbn [length seq]. unfold take_rows. cbn.
  rewrite list_lookup_middle by reflexivity. cbn. f_equal.
  specialize (IH (pre ++ [a])). rewrite length_app, Nat.add_1_r in IH.
  rewrite <- app_assoc in IH. exact IH.
Qed.

Lemma take_rows_seq {A} (l : list A) : take_rows (seq 0 (length l)) l = l.
Proof. apply (take_rows_seq_app [] l). Qed.

(** Taking the rows at a permutation of all positions gives the rows
    back, in another order. *)
Lemma take_rows_Permutation {A} (positions : list nat) (l : list A) :
  positions ≡ₚ seq 0 (length l) → take_rows positions l ≡ₚ l.
Proof.
  intros Hp. unfold take_rows. rewrite Hp. fold (take_rows (seq 0 (length l)) l).
  rewrite take_rows_seq. reflexivity.
Qed.

Lemma iloc_in_bounds (df : DataFrame) (positions : list nat) :
  Forall (λ i, i < len df)%nat positions →
  iloc df positions =
    Ok {| index := take_rows positions (index df);
          columns := column_take positions <$> columns df |}.
Proof.
  intros Hall. unfold iloc.
  destruct (forallb (λ i, i <? len df)%nat positions) eqn:Hb; [reflexivity|].
  exfalso. apply not_true_iff_false in Hb. apply Hb. apply forallb_forall.
  intros i Hi. apply Nat.ltb_lt.
  apply (proj1 (Forall_forall _ _) Hall). apply list_elem_of_In. exact Hi.
Qed.

Lemma iloc_out_of_bounds (df : DataFrame) (positions : list nat) (i : nat) :
  i ∈ positions → (len df ≤ i)%nat → iloc df positions = Raise IndexError.
Proof.
  intros Hi Hge. unfold iloc.
  destruct (forallb (λ i, i <? len df)%nat positions) eqn:Hb; [|reflexivity].
  exfalso. rewrite forallb_forall in Hb.
  specialize (Hb i (proj1 (list_elem_of_In _ _) Hi)). apply Nat.ltb_lt in Hb. lia.
Qed.

Lemma iloc_columns_dom (df sub : DataFrame) (positions : list nat) :
  iloc df positions = Ok sub → dom (columns sub) = dom (columns df).
Proof.
  unfold iloc. destruct (forallb _ positions); [|discriminate].
  intros [= <-]. apply dom_fmap_L.
Qed.

Lemma iloc_index (df sub : DataFrame) (positions : list nat) :
  iloc df positions = Ok sub →
  index sub = take_rows positions (index df) ∧ len sub = length positions.
Proof.
  unfold iloc. destruct (forallb _ positions) eqn:Hb; [|discriminate].
  intros [= <-]. split; [reflexivity|].
  unfold len. cbn [index]. apply take_rows_length.
  apply Forall_forall. intros i Hi. rewrite forallb_forall in Hb.
  specialize (Hb i (proj1 (list_elem_of_In _ _) Hi)). apply Nat.ltb_lt in Hb. exact Hb.
Qed.

Section split_facts.
Context `{BitGenerator}.

(** The random split, once the permutation and the size [int(n * ratio)]
    are known: the test set is the rows at the positions before the cut
    and the train set the rows at the positions from the cut on, where
    the cut is the size, counted from the end when it is negative. *)
Lemma shuffle_and_split_data_cut (dataset : DataFrame) (test_ratio : float)
    (np_random np_random' : rng_state) (shuffled_indices : list nat)
    (test_set_size : Z) :
  RandomState.permutation (len dataset) np_random = (shuffled_indices, np_random') →
  F64.py_int (F64.of_nat (len dataset) * test_ratio)%float = Ok test_set_size →
  ∃ train_set test_set,
    iloc dataset
      (take (Z.to_nat (if (test_set_size <? 0)%Z
                       then Z.of_nat (len dataset) + test_set_size
                       else test_set_size)%Z) shuffled_indices) = Ok test_set ∧
    iloc dataset
      (drop (Z.to_nat (if (test_set_size <? 0)%Z
                       then Z.of_nat (len dataset) + test_set_size
                       else test_set_size)%Z) shuffled_indices) = Ok train_set ∧
    index test_set ++ index train_set ≡ₚ index dataset ∧
    shuffle_and_split_data dataset test_ratio np_random
      = Ok ((train_set, test_set), np_random').
Proof.
  intros Hperm Hk.
  pose proof (permutation_Permutation (len dataset) np_random) as Hp.
  rewrite Hperm in Hp. cbn [fst] in Hp.
  assert (Hlen : length shuffled_indices = len dataset) by (rewrite Hp; apply length_seq).
  set (cut := Z.to_nat _).
  assert (Hto : slice_to test_set_size shuffled_indices = take cut shuffled_indices)
    by (unfold slice_to, cut; rewrite Hlen; destruct (test_set_size <? 0)%Z; reflexivity).
  assert (Hfrom : slice_from test_set_size shuffled_indices = drop cut shuffled_indices)
    by (unfold slice_from, cut; rewrite Hlen; destruct (test_set_size <? 0)%Z; reflexivity).
  assert (Hall : ∀ l, l ⊆ shuffled_indices → Forall (λ i, i < len dataset)%nat l).
  { intros l Hl. apply Forall_forall. intros i Hi. apply Hl in Hi.
    rewrite Hp in Hi. apply elem_of_seq in Hi. lia. }
  pose proof (iloc_in_bounds _ _ (Hall _ (subseteq_take cut _))) as Htest.
  pose proof (iloc_in_bounds _ _ (Hall _ (subseteq_drop cut _))) as Htrain.
  eexists. eexists. split; [exact Htest|]. split; [exact Htrain|]. split.
  - cbn [index]. rewrite <- take_rows_app, take_drop.
    apply take_rows_Permutation. exact Hp.
  - unfold shuffle_and_split_data. rewrite Hperm, Hk. cbn [mbind result_bind].
    rewrite Hto, Hfrom, Htrain, Htest. reflexivity.
Qed.

(** A random split that returns has taken both sets from the record set
    by position. *)
Lemma shuffle_and_split_data_inv (dataset : DataFrame) (test_ratio : float)
    (np_random np_random' : rng_state) (train_set test_set : DataFrame) :
  shuffle_and_split_data dataset test_ratio np_random
    = Ok ((train_set, test_set), np_random') →
  ∃ train_indices test_indices,
    iloc dataset train_indices = Ok train_set ∧
    iloc dataset test_indices = Ok test_set ∧
    index test_set ++ index train_set ≡ₚ index dataset.
Proof.
  intros Hsplit.
  destruct (RandomState.permutation (len dataset) np_random)
    as [shuffled rng1] eqn:Hperm.
  destruct (F64.py_int (F64.of_nat (len dataset) * test_ratio)%float) as [k|e] eqn:Hk.
  2:{ unfold shuffle_and_split_data in Hsplit. rewrite Hperm, Hk in Hsplit.
      discriminate. }
  destruct (shuffle_and_split_data_cut _ _ _ _ _ _ Hperm Hk)
    as (train & test & Htest & Htrain & Hrows & Hrun).
  rewrite Hrun in Hsplit. injection Hsplit as <- <- <-. eauto.
Qed.



(** X5: A NaN ratio makes the random split raise [ValueError]: [int] refuses
    the NaN product. *)
Theorem shuffle_and_split_data_nan_ratio (dataset : DataFrame) (test_ratio : float)
    (np_random : rng_state) :
  F64.isnan test_ratio = true →
  ∃ msg, shuffle_and_split_data dataset test_ratio np_random = Raise (ValueError msg).
Proof.
  intros Hnan. apply isnan_spec in Hnan.
  unfold shuffle_and_split_data.
  destruct (RandomState.permutation (len dataset) np_random) as [shuffled np_random'].
  assert (Hprod : Prim2SF (F64.of_nat (len dataset) * test_ratio)%float = S754_nan).
  { rewrite mul_spec, Hnan. destruct (Prim2SF (F64.of_nat (len dataset))); reflexivity. }
  unfold F64.py_int. rewrite Hprod. eexists. reflexivity.
Qed.

End split_facts.



Lemma shuffle_and_split_data_nan_ratio_witness :
  ∃ msg, shuffle_and_split_data (housing [1; 2; 3]%float) nan 42%Z
         = Raise (ValueError msg).
Proof.
  apply (@shuffle_and_split_data_nan_ratio lcg (housing [1; 2; 3]%float) nan 42%Z).
  reflexivity.
Defined.

(** ** More on [add_income_category] *)

(** X7: Adding the income category twice is the same as adding it once: the
    second call finds the same [median_income] and replaces [income_cat]
    by an equal column. *)
Theorem add_income_category_idempotent (data data' : DataFrame) :
  add_income_category data = Ok data' →
  add_income_category data' = Ok data'.
Proof.
  unfold add_income_category, getitem.
  destruct (columns data !! "median_income") as [[xs|xs|cats xs]|] eqn:Hcol;
    try discriminate.
  cbn. intros [= <-]. cbn [setitem columns].
  rewrite lookup_insert_ne by discriminate. rewrite Hcol. cbn.
  unfold setitem. cbn [columns index]. rewrite insert_insert_eq. reflexivity.
Qed.

Lemma add_income_category_idempotent_witness :
  add_income_category
    (setitem (housing [0.5; 7]%float) "income_cat"
       (Category income_labels [Some 1; Some 5]%Z))
  = Ok (setitem (housing [0.5; 7]%float) "income_cat"
          (Category income_labels [Some 1; Some 5]%Z)).
Proof.
  apply (add_income_category_idempotent (housing [0.5; 7]%float)).
  reflexivity.
Defined.

(** ** The report on frames made by the script *)

Lemma iloc_income_cat (df sub : DataFrame) (positions : list nat)
    (categories : list Z) (values : list (option Z)) :
  columns df !! "income_cat" = Some (Category categories values) →
  iloc df positions = Ok sub →
  columns sub !! "income_cat" =
    Some (Category categories (take_rows positions values)).
Proof.
  intros Hcol. unfold iloc.
  destruct (forallb _ positions); [|discriminate].
  intros [= <-]. cbn [columns]. rewrite lookup_fmap, Hcol. reflexivity.
Qed.

Lemma compare_labelled_table (data housing_data strat_test_set test_set : DataFrame)
    (strat_positions positions : list nat) :
  add_income_category data = Ok housing_data →
  iloc housing_data strat_positions = Ok strat_test_set →
  iloc housing_data positions = Ok test_set →
  ∃ report,
    compare_income_category_proportions housing_data strat_test_set test_set
      = Ok report ∧
    index report = [1; 2; 3; 4; 5]%Z ∧
    ∀ name,
      name ∈ ["Overall %"; "Stratified %"; "Random %"; "Strat. Error %"; "Rand. Error %"] →
      ∃ values, columns report !! name = Some (Float64 values) ∧ length values = 5%nat.
Proof.
  intros Hadd Hstrat Hrand.
  assert (Hcat : ∃ values, columns housing_data !! "income_cat"
                           = Some (Category income_labels values)).
  { revert Hadd. unfold add_income_category, getitem.
    destruct (columns data !! "median_income") as [[xs|xs|cats xs]|]; try discriminate.
    cbn. intros [= <-]. eexists. cbn [setitem columns]. apply lookup_insert_eq. }
  destruct Hcat as (values & Hcat).
  pose proof (iloc_income_cat _ _ _ _ _ Hcat Hstrat) as Hcs.
  pose proof (iloc_income_cat _ _ _ _ _ Hcat Hrand) as Hcr.
  destruct (compare_income_category_proportions_table _ _ _ _ _ _ _ _ _ Hcat Hcs Hcr)
    as (overall & stratified & random & report & _ & _ & _ & Hrep & Hsorted & Hmem
        & Ho & Hs & Hr & Hse & Hre).
  assert (Hidx : index report = [1; 2; 3; 4; 5]%Z).
  { apply Sorted_lt_unique; [assumption|repeat constructor|].
    intros x. rewrite Hmem. unfold income_labels. tauto. }
  exists report. split; [exact Hrep|]. split; [exact Hidx|].
  intros name Hname.
  repeat (apply elem_of_cons in Hname as [->|Hname]);
    [| | | | |apply not_elem_of_nil in Hname; destruct Hname];
    eexists; (split; [eassumption|]); rewrite length_fmap, Hidx; reflexivity.
Qed.

(** X9: On a frame labelled by [add_income_category] and any two subsets
    taken from it by position, the comparison succeeds and its table has
    exactly the rows 1, 2, 3, 4, 5 in this order, whatever labels the
    three sets hold, and five columns of five numbers. *)
Theorem compare_on_labelled_subsets (data housing_data strat_test_set test_set : DataFrame)
    (strat_positions positions : list nat) :
  add_income_category data = Ok housing_data →
  iloc housing_data strat_positions = Ok strat_test_set →
  iloc housing_data positions = Ok test_set →
  ∃ report,
    compare_income_category_proportions housing_data strat_test_set test_set
      = Ok report ∧
    index report = [1; 2; 3; 4; 5]%Z ∧
    dom (columns report) =
      {[ "Overall %"; "Stratified %"; "Random %"; "Strat. Error %"; "Rand. Error %" ]} ∧
    ∀ name, name ∈ dom (columns report) →
      ∃ values, columns report !! name = Some (Float64 values) ∧ length values = 5%nat.
Proof.
  intros Hadd Hstrat Hrand.
  destruct (compare_labelled_table _ _ _ _ _ _ Hadd Hstrat Hrand)
    as (report & Hrep & Hidx & Hcols).
  exists report. split; [exact Hrep|]. split; [exact Hidx|].
  assert (Hdom : dom (columns report) =
      {[ "Overall %"; "Stratified %"; "Random %"; "Strat. Error %"; "Rand. Error %" ]}).
  { revert Hrep. unfold compare_income_category_proportions.
    destruct (income_cat_proportions housing_data) as [ov|]; [|discriminate].
    destruct (income_cat_proportions strat_test_set) as [st|]; [|discriminate].
    destruct (income_cat_proportions test_set) as [rd|]; [|discriminate].
    cbn [mbind result_bind].
    set (table := Frame.sort_index _).
    assert (Hdt : dom (columns table) = {[ "Overall %"; "Stratified %"; "Random %" ]}).
    { unfold table, Frame.sort_index, Frame.of_dict. cbn [columns].
      rewrite dom_fmap_L. cbn [fmap list_fmap fst snd list_to_map foldr].
      rewrite !dom_insert_L, dom_empty_L. set_solver. }
    destruct (getitem table "Stratified %") as [c1|]; [|discriminate].
    destruct (getitem table "Overall %") as [c2|]; [|discriminate].
    cbn [mbind result_bind].
    destruct (error_percent c1 c2) as [e1|]; [|discriminate].
    cbn [mbind result_bind].
    destruct (getitem (setitem table "Strat. Error %" e1) "Random %") as [c3|];
      [|discriminate].
    destruct (getitem (setitem table "Strat. Error %" e1) "Overall %") as [c4|];
      [|discriminate].
    cbn [mbind result_bind].
    destruct (error_percent c3 c4) as [e2|]; [|discriminate].
    cbn [mbind result_bind]. intros [= <-]. cbn [setitem columns].
    rewrite !dom_insert_L, Hdt. set_solver. }
  split; [exact Hdom|].
  intros name. rewrite Hdom, !elem_of_union, !elem_of_singleton.
  intros Hname. apply Hcols. rewrite !elem_of_cons. tauto.
Qed.

Lemma compare_on_labelled_subsets_witness :
  ∃ housing_data strat_test_set test_set report,
    add_income_category (housing [0.5; 2; 2.5; 7]%float) = Ok housing_data ∧
    iloc housing_data [1; 3]%nat = Ok strat_test_set ∧
    iloc housing_data [0]%nat = Ok test_set ∧
    compare_income_category_proportions housing_data strat_test_set test_set
      = Ok report ∧
    index report = [1; 2; 3; 4; 5]%Z ∧
    dom (columns report) =
      {[ "Overall %"; "Stratified %"; "Random %"; "Strat. Error %"; "Rand. Error %" ]} ∧
    ∀ name, name ∈ dom (columns report) →
      ∃ values, columns report !! name = Some (Float64 values) ∧ length values = 5%nat.
Proof.
  destruct (compare_on_labelled_subsets (housing [0.5; 2; 2.5; 7]%float)
              _ _ _ [1; 3]%nat [0]%nat eq_refl eq_refl eq_refl)
    as (report & Hrep & Hrest).
  eexists. eexists. eexists. exists report.
  split; [reflexivity|]. split; [reflexivity|]. split; [reflexivity|].
  split; [exact Hrep|exact Hrest].
Defined.

(** ** Missing columns *)

(** X10: Each function raises [KeyError] for the column it reads when the
    frame does not have it: [median_income] for [add_income_category],
    [income_cat] for the proportions, the comparison (whichever of its
    three sets lacks it) and the stratified split. *)
Theorem missing_column_KeyError `{BitGenerator}
    (data other1 other2 : DataFrame) (splitter : sklearn.StratifiedShuffleSplit) :
  (columns data !! "median_income" = None →
     add_income_category data = Raise (KeyError "median_income")) ∧
  (columns data !! "income_cat" = None →
     income_cat_proportions data = Raise (KeyError "income_cat") ∧
     stratified_shuffle_and_split_data data splitter = Raise (KeyError "income_cat") ∧
     compare_income_category_proportions data other1 other2
       = Raise (KeyError "income_cat") ∧
     (is_ok (income_cat_proportions other1) = true →
        compare_income_category_proportions other1 data other2
          = Raise (KeyError "income_cat")) ∧
     (is_ok (income_cat_proportions other1) = true →
      is_ok (income_cat_proportions other2) = true →
        compare_income_category_proportions other1 other2 data
          = Raise (KeyError "income_cat"))).
Proof.
  split.
  - intros Hm. unfold add_income_category, getitem. rewrite Hm. reflexivity.
  - intros Hm.
    assert (Hp : income_cat_proportions data = Raise (KeyError "income_cat"))
      by (unfold income_cat_proportions, getitem; rewrite Hm; reflexivity).
    split; [exact Hp|]. split.
    { unfold stratified_shuffle_and_split_data, getitem. rewrite Hm. reflexivity. }
    unfold compare_income_category_proportions. rewrite Hp.
    split; [reflexivity|]. split.
    + destruct (income_cat_proportions other1); [reflexivity|discriminate].
    + destruct (income_cat_proportions other1); [|discriminate].
      destruct (income_cat_proportions other2); [reflexivity|discriminate].
Qed.

(** ** [stratified_shuffle_and_split_data]: refused inputs *)

(** [ceil(test_size * n)] is defined for a test size in (0, 1) and fewer
    than 2^53 rows. *)
Lemma py_ceil_ratio_times_count (n : nat) (r : float) :
  (Z.of_nat n < 2 ^ 53)%Z →
  (0 <? r)%float = true → (r <? 1)%float = true →
  ∃ z, F64.py_ceil (r * F64.of_nat n)%float = Ok z.
Proof.
  intros Hn H0 H1.
  destruct (Rounding.ratio_decode r H0 H1) as (mr & er & Hr & Hmr & Her).
  assert (Hshape : Prim2SF (r * F64.of_nat n)%float = S754_zero false ∨
                   ∃ m e, Prim2SF (r * F64.of_nat n)%float = S754_finite false m e).
  { rewrite mul_spec, Hr. unfold F64.of_nat.
    destruct (Z.of_nat n) as [|p|p] eqn:Hp; [| |lia].
    - unfold F64.of_Z. rewrite Prim2SF_SF2Prim by reflexivity. left. reflexivity.
    - destruct (Rounding.of_Z_pos p Hn) as (mz & ez & Hz & Hmz & Hez & Hv).
      rewrite Hz. unfold SF64mul, SFmul. cbn [xorb].
      rewrite Pos.mul_comm, Z.add_comm.
      destruct (Rounding.mul_round_le mz mr ez er Hmz Hez Hmr Her)
        as (_ & _ & _ & _ & Hshape).
      exact Hshape. }
  unfold F64.py_ceil.
  destruct Hshape as [->|(m & e & ->)]; eexists; reflexivity.
Qed.

Lemma check_array_nan (categories : list Z) (values : list (option Z)) :
  None ∈ values →
  ∃ msg, sklearn.check_array (Category categories values) = Raise (ValueError msg).
Proof.
  intros Hin. unfold sklearn.check_array.
  assert (Hm : mapM id values = None).
  { apply mapM_None. apply Exists_exists. exists None. split; [assumption|reflexivity]. }
  rewrite Hm. eexists. reflexivity.
Qed.

Lemma add_income_category_Float64 (data : DataFrame) (median_income : list float) :
  columns data !! "median_income" = Some (Float64 median_income) →
  add_income_category data =
    Ok (setitem data "income_cat"
          (Category income_labels (pd.cut1 income_bins income_labels <$> median_income))).
Proof.
  intros Hcol. unfold add_income_category, getitem. rewrite Hcol. reflexivity.
Qed.

Lemma cut1_unlabelled (median_income : list float) (x : float) :
  x ∈ median_income →
  (x <=? 0)%float = true ∨ F64.isnan x = true →
  None ∈ pd.cut1 income_bins income_labels <$> median_income.
Proof.
  intros Hx Hbad. apply list_elem_of_fmap. exists x. split; [|exact Hx].
  symmetry. apply (cut1_income_cases x _ eq_refl). exact Hbad.
Qed.

Section stratified_refusals.
Context `{BitGenerator}.

Lemma unlabelled_row_ValueError (housing_data : DataFrame)
    (categories : list Z) (values : list (option Z))
    (data_splitter : sklearn.StratifiedShuffleSplit) :
  columns housing_data !! "income_cat" = Some (Category categories values) →
  None ∈ values →
  ∃ msg, stratified_shuffle_and_split_data housing_data data_splitter
         = Raise (ValueError msg).
Proof.
  intros Hcol Hin.
  destruct (check_array_nan categories values Hin) as (msg & Hmsg).
  exists msg. unfold stratified_shuffle_and_split_data, getitem.
  rewrite Hcol. cbn [mbind result_bind].
  unfold sklearn.split. rewrite Hmsg. reflexivity.
Qed.

(** X11: A row without a label makes the stratified split fail. With
    [add_income_category] before it: one median income that is not above
    zero (or is NaN) in the record set, the labelling succeeds and leaves
    that row without a label, and the split raises [ValueError]. *)
Theorem stratified_split_refuses_unlabelled (data : DataFrame)
    (median_income : list float) (x : float)
    (data_splitter : sklearn.StratifiedShuffleSplit) :
  columns data !! "median_income" = Some (Float64 median_income) →
  x ∈ median_income →
  (x <=? 0)%float = true ∨ F64.isnan x = true →
  ∃ housing_data income_cat i msg,
    add_income_category data = Ok housing_data ∧
    columns housing_data !! "income_cat" = Some (Category income_labels income_cat) ∧
    median_income !! i = Some x ∧
    income_cat !! i = Some None ∧
    stratified_shuffle_and_split_data housing_data data_splitter
      = Raise (ValueError msg).
Proof.
  intros Hcol Hx Hbad.
  pose proof (cut1_unlabelled median_income x Hx Hbad) as Hin.
  destruct (unlabelled_row_ValueError
              (setitem data "income_cat"
                 (Category income_labels
                    (pd.cut1 income_bins income_labels <$> median_income)))
              _ _ data_splitter (lookup_insert_eq _ _ _) Hin) as (msg & Hmsg).
  pose proof Hx as Hx'. apply list_elem_of_lookup in Hx' as [i Hi].
  eexists. exists (pd.cut1 income_bins income_labels <$> median_income), i, msg.
  split; [apply add_income_category_Float64, Hcol|].
  split; [apply lookup_insert_eq|]. split; [exact Hi|]. split; [|exact Hmsg].
  rewrite list_lookup_fmap, Hi. cbn. f_equal.
  apply (cut1_income_cases x _ eq_refl). exact Hbad.
Qed.

Lemma foldr_min_le (l : list Z) (d x : Z) :
  x ∈ l → (foldr Z.min d l ≤ x)%Z.
Proof.
  induction l as [|y l IH]; intros Hin; [inversion Hin|].
  cbn [foldr]. apply elem_of_cons in Hin as [->|Hin]; [lia|].
  specialize (IH Hin). lia.
Qed.

(** C5, amended: a label carried by a single row makes the stratified
    split fail with [ValueError], whatever the other rows are. One label
    for the whole record set is no reason to fail. *)
Theorem stratified_split_refuses_single_member (dataset : DataFrame)
    (categories : list Z) (values : list (option Z)) (label : Z)
    (data_splitter : sklearn.StratifiedShuffleSplit) :
  columns dataset !! "income_cat" = Some (Category categories values) →
  Series.count label values = 1%nat →
  (Z.of_nat (len dataset) < 2 ^ 53)%Z →
  (0 <? sklearn.test_size data_splitter)%float = true →
  (sklearn.test_size data_splitter <? 1)%float = true →
  ∃ msg, stratified_shuffle_and_split_data dataset data_splitter
         = Raise (ValueError msg).
Proof.
  intros Hcol Hcount Hn H0 H1.
  unfold stratified_shuffle_and_split_data, getitem. rewrite Hcol.
  cbn [mbind result_bind]. unfold sklearn.split, sklearn.check_array.
  destruct (mapM id values) as [y|] eqn:Hy; [|eexists; reflexivity].
  destruct y as [|y0 y]; [eexists; reflexivity|].
  cbn [mbind result_bind].
  destruct (negb (len dataset =? length (y0 :: y))%nat); [eexists; reflexivity|].
  unfold sklearn.validate_shuffle_split.
  replace (sklearn.test_size data_splitter <=? 0)%float with false.
  2:{ symmetry. rewrite leb_negb_ltb, H0; [reflexivity| |reflexivity].
      apply (ltb_not_nan _ _ H0). }
  replace (1 <=? sklearn.test_size data_splitter)%float with false.
  2:{ symmetry. rewrite leb_negb_ltb, H1; [reflexivity|reflexivity|].
      apply (ltb_not_nan _ _ H1). }
  cbn [orb].
  destruct (py_ceil_ratio_times_count (len dataset) _ Hn H0 H1) as (n_test & ->).
  cbn [mbind result_bind].
  destruct (Z.of_nat (len dataset) <? Z.of_nat (len dataset) - n_test + n_test)%Z;
    [eexists; reflexivity|].
  destruct (Z.of_nat (len dataset) - n_test =? 0)%Z; [eexists; reflexivity|].
  cbn [mbind result_bind].
  set (labels := y0 :: y) in *.
  assert (Hmin : (foldr Z.min (Z.of_nat (length labels))
                    (sklearn.bincount (sklearn.unique labels) labels) <? 2)%Z = true).
  { apply Z.ltb_lt.
    assert (Hcnt : length (filter (λ l, l = label) labels) = 1%nat).
    { rewrite <- Hcount. unfold Series.count. apply mapM_Some in Hy.
      clear -Hy. induction Hy as [|v l vs ls Hv _ IH]; [reflexivity|].
      unfold id in Hv. subst v. rewrite !filter_cons.
      destruct (decide (l = label)) as [->|Hne].
      - rewrite decide_True by reflexivity. cbn. rewrite IH. reflexivity.
      - rewrite decide_False by congruence. exact IH. }
    assert (Hin : label ∈ sklearn.unique labels).
    { unfold sklearn.unique. rewrite merge_sort_Permutation, elem_of_remove_dups.
      destruct (filter (λ l, l = label) labels) as [|l0 ?] eqn:Hf; [discriminate|].
      assert (Hl0 : l0 ∈ filter (λ l, l = label) labels) by (rewrite Hf; left).
      apply list_elem_of_filter in Hl0 as [-> ?]. assumption. }
    assert (Hone : (1 : Z)%Z ∈ sklearn.bincount (sklearn.unique labels) labels).
    { unfold sklearn.bincount. apply list_elem_of_fmap. exists label.
      split; [rewrite Hcnt; reflexivity|assumption]. }
    pose proof (foldr_min_le _ (Z.of_nat (length labels)) 1%Z Hone). lia. }
  rewrite Hmin. eexists. reflexivity.
Qed.

End stratified_refusals.

Lemma stratified_split_refuses_unlabelled_witness :
  ∃ housing_data income_cat i msg,
    add_income_category (housing [2; 0; 3; 5]%float) = Ok housing_data ∧
    columns housing_data !! "income_cat" = Some (Category income_labels income_cat) ∧
    [2; 0; 3; 5]%float !! i = Some 0%float ∧
    income_cat !! i = Some None ∧
    stratified_shuffle_and_split_data housing_data
      {| sklearn.n_splits := 1; sklearn.test_size := 0.2%float;
         sklearn.random_state := 42 |}
      = Raise (ValueError msg).
Proof.
  apply (@stratified_split_refuses_unlabelled lcg (housing [2; 0; 3; 5]%float)
           [2; 0; 3; 5]%float 0%float).
  - reflexivity.
  - right. left.
  - left. reflexivity.
Defined.

Lemma stratified_split_refuses_single_member_witness :
  ∃ msg, stratified_shuffle_and_split_data
           (labelled [Some 2; Some 2; Some 2; Some 2; Some 3]%Z)
           {| sklearn.n_splits := 1; sklearn.test_size := 0.2%float;
              sklearn.random_state := 42 |}
         = Raise (ValueError msg).
Proof.
  apply (@stratified_split_refuses_single_member lcg
           (labelled [Some 2; Some 2; Some 2; Some 2; Some 3]%Z)
           income_labels [Some 2; Some 2; Some 2; Some 2; Some 3]%Z 3%Z);
    reflexivity.
Defined.

(** C5 as stated fails: a record set of ten rows that all carry label 3
    has fewer than two distinct labels, and the stratified split with
    ratio 0.2 does not fail: it returns a train set of eight rows and a
    test set of two, all of label 3. *)
Lemma single_label_population_is_split :
  ∃ housing_data train test,
    add_income_category (housing [3.5; 3.2; 4; 4.5; 3.1; 3.3; 3.9; 4.2; 3.6; 4.4]%float)
      = Ok housing_data ∧
    columns housing_data !! "income_cat" =
      Some (Category income_labels (replicate 10 (Some 3%Z))) ∧
    stratified_shuffle_and_split_data (H := lcg) housing_data
      {| sklearn.n_splits := 1; sklearn.test_size := 0.2%float;
         sklearn.random_state := 42 |} = Ok [(train, test)] ∧
    columns test !! "income_cat" = Some (Category income_labels [Some 3; Some 3]%Z) ∧
    len test = 2%nat ∧ len train = 8%nat.
Proof.
  eexists. eexists. eexists. split; [reflexivity|]. split; [reflexivity|].
  split; [vm_compute; reflexivity|]. split; [reflexivity|]. split; reflexivity.
Qed.

(** The share of a label in the test set can be far from the ratio: with
    2 rows of label 1, 19 rows of label 2 and ratio 0.2, the test set
    takes 5 of the 19 rows and none of the 2. *)
Lemma stratified_test_share_example :
  ∃ train test,
    stratified_shuffle_and_split_data (H := lcg)
      (labelled ([Some 1; Some 1] ++ replicate 19 (Some 2))%Z)
      {| sklearn.n_splits := 1; sklearn.test_size := 0.2%float;
         sklearn.random_state := 42 |} = Ok [(train, test)] ∧
    columns test !! "income_cat" = Some (Category income_labels (replicate 5 (Some 2%Z))) ∧
    len test = 5%nat ∧ len train = 16%nat.
Proof.
  eexists. eexists. split; [vm_compute; reflexivity|].
  split; [reflexivity|]. split; reflexivity.
Qed.

(** ** [stratified_shuffle_and_split_data]: what a split is made of *)

Lemma take_clip_take_rows {A} (a : list A) (indices : list nat) :
  Forall (λ i, i < length a)%nat indices →
  sklearn.take_clip a indices = take_rows indices a.
Proof.
  unfold sklearn.take_clip, take_rows.
  induction 1 as [|i indices Hi _ IH]; [reflexivity|].
  cbn. rewrite IH. replace (i `min` (length a - 1))%nat with i by lia. reflexivity.
Qed.

Lemma take_clip_Permutation {A} (a : list A) (indices : list nat) :
  indices ≡ₚ seq 0 (length a) → sklearn.take_clip a indices ≡ₚ a.
Proof.
  intros Hp. rewrite take_clip_take_rows.
  - apply take_rows_Permutation. exact Hp.
  - rewrite Hp. apply Forall_forall. intros i Hi. apply elem_of_seq in Hi. lia.
Qed.

(** The train slice [a[:n]] and the test slice [a[n:n + t]] of an array
    never share a position of the array. *)
Lemma slices_submseteq {A} (n m : Z) (a : list A) :
  slice_to n a ++ sklearn.slice n m a ⊆+ a.
Proof.
  unfold slice_to, sklearn.slice.
  set (lo := Z.to_nat (if (n <? 0)%Z then Z.of_nat (length a) + n else n)%Z).
  set (hi := Z.to_nat (if (m <? 0)%Z then Z.of_nat (length a) + m else m)%Z).
  assert (Hto : (if (n <? 0)%Z then take (Z.to_nat (Z.of_nat (length a) + n)) a
                 else take (Z.to_nat n) a) = take lo a)
    by (unfold lo; destruct (n <? 0)%Z; reflexivity).
  rewrite Hto. apply sublist_submseteq.
  rewrite <- (take_drop lo a) at 3.
  apply sublist_app; [reflexivity|apply sublist_take].
Qed.

Lemma submseteq_NoDup {A} (l k : list A) : l ⊆+ k → NoDup k → NoDup l.
Proof.
  intros Hsub Hk. apply submseteq_Permutation in Hsub as [k' Hk'].
  rewrite Hk' in Hk. apply NoDup_app in Hk. tauto.
Qed.

Section stratified_structure.
Context `{BitGenerator}.

(** The loop over the classes only moves positions of the classes'
    rows to the train and test arrays, none of them twice. *)
Lemma split_classes_submseteq (class_counts n_i t_i : list Z)
    (class_indices : list (list nat)) (train test : list nat) (rng : rng_state) :
  Forall2 (λ count indices, Z.to_nat count = length indices) class_counts class_indices →
  (sklearn.split_classes class_counts n_i t_i class_indices train test rng).1.1 ++
  (sklearn.split_classes class_counts n_i t_i class_indices train test rng).1.2
    ⊆+ train ++ test ++ concat class_indices.
Proof.
  intros Hcons. revert n_i t_i train test rng.
  induction Hcons as [|count indices class_counts class_indices Hlen _ IH];
    intros n_i t_i train test rng.
  - cbn. rewrite app_nil_r. reflexivity.
  - destruct n_i as [|n n_i]; [cbn; apply submseteq_skips_l, submseteq_inserts_r; reflexivity|].
    destruct t_i as [|t t_i]; [cbn; apply submseteq_skips_l, submseteq_inserts_r; reflexivity|].
    cbn [sklearn.split_classes].
    pose proof (permutation_Permutation (Z.to_nat count) rng) as Hperm.
    destruct (RandomState.permutation (Z.to_nat count) rng) as [perm rng'].
    cbn [fst] in Hperm. rewrite Hlen in Hperm.
    etrans; [apply IH|].
    pose proof (slices_submseteq n (n + t) (sklearn.take_clip indices perm)) as Hs.
    rewrite (take_clip_Permutation indices perm Hperm) in Hs at 3.
    cbn [concat].
    set (tr := slice_to n (sklearn.take_clip indices perm)) in *.
    set (te := sklearn.slice n (n + t) (sklearn.take_clip indices perm)) in *.
    assert (Hre : (train ++ tr) ++ (test ++ te) ++ concat class_indices
                  ≡ₚ train ++ test ++ (tr ++ te) ++ concat class_indices).
    { rewrite <- !app_assoc. apply Permutation_app_head.
      rewrite !app_assoc. apply Permutation_app_tail.
      rewrite <- !app_assoc. rewrite (Permutation_app_comm tr (test ++ te)).
      rewrite <- !app_assoc. apply Permutation_app_head. apply Permutation_app_comm. }
    rewrite Hre. repeat apply submseteq_skips_l. apply submseteq_skips_r. exact Hs.
Qed.


Lemma iter_once_submseteq (class_counts : list Z) (class_indices : list (list nat))
    (n_train n_test : Z) (rng rng' : rng_state) (train test : list nat) :
  Forall2 (λ count indices, Z.to_nat count = length indices) class_counts class_indices →
  sklearn.iter_once class_counts class_indices n_train n_test rng
    = Ok ((train, test), rng') →
  train ++ test ⊆+ concat class_indices.
Proof.
  intros Hcons. unfold sklearn.iter_once.
  destruct (sklearn.approximate_mode class_counts n_train rng) as [[n_i rng1]|];
    [|discriminate].
  cbn [mbind result_bind].
  destruct (sklearn.approximate_mode _ n_test rng1) as [[t_i rng2]|]; [|discriminate].
  cbn [mbind result_bind].
  pose proof (split_classes_submseteq class_counts n_i t_i class_indices [] [] rng2 Hcons)
    as Hsub.
  destruct (sklearn.split_classes class_counts n_i t_i class_indices [] [] rng2)
    as [[tr te] rng3].
  cbn [fst snd app] in Hsub.
  pose proof (shuffle_Permutation tr rng3) as Htr.
  destruct (RandomState.shuffle tr rng3) as [tr' rng4]. cbn [fst] in Htr.
  pose proof (shuffle_Permutation te rng4) as Hte.
  destruct (RandomState.shuffle te rng4) as [te' rng5]. cbn [fst] in Hte.
  intros [= <- <- <-]. rewrite Htr, Hte. exact Hsub.
Qed.

Lemma iter_indices_submseteq (n : nat) (class_counts : list Z)
    (class_indices : list (list nat)) (n_train n_test : Z) (rng : rng_state)
    (indices : list (list nat * list nat)) :
  Forall2 (λ count indices, Z.to_nat count = length indices) class_counts class_indices →
  sklearn.iter_indices n class_counts class_indices n_train n_test rng = Ok indices →
  length indices = n ∧
  Forall (λ p, p.1 ++ p.2 ⊆+ concat class_indices) indices.
Proof.
  intros Hcons. revert rng indices. induction n as [|n IH]; intros rng indices.
  - intros [= <-]. split; [reflexivity|constructor].
  - cbn [sklearn.iter_indices].
    destruct (sklearn.iter_once class_counts class_indices n_train n_test rng)
      as [[[train test] rng1]|] eqn:Honce; [|discriminate].
    cbn [mbind result_bind].
    destruct (sklearn.iter_indices n class_counts class_indices n_train n_test rng1)
      as [rest|] eqn:Hrest; [|discriminate].
    cbn [mbind result_bind]. intros [= <-].
    destruct (IH _ _ Hrest) as [Hlen Hall].
    split; [cbn; rewrite Hlen; reflexivity|].
    constructor; [|exact Hall].
    apply (iter_once_submseteq _ _ _ _ _ _ _ _ Hcons Honce).
Qed.

End stratified_structure.

Lemma elem_of_concat {A} (x : A) (ls : list (list A)) :
  x ∈ concat ls ↔ ∃ l, x ∈ l ∧ l ∈ ls.
Proof.
  induction ls as [|l ls IH]; cbn [concat].
  - split; [intros Hx; inversion Hx|intros (l & _ & Hl); inversion Hl].
  - rewrite elem_of_app, IH. split.
    + intros [Hx|(l2 & Hx & Hl2)]; [exists l; split; [assumption|left]|].
      exists l2. split; [assumption|right; assumption].
    + intros (l2 & Hx & Hl2). apply elem_of_cons in Hl2 as [->|Hl2]; [left; assumption|].
      right. exists l2. split; assumption.
Qed.

Lemma positions_count_app (c : Z) (pre y : list Z) :
  length (filter (λ p, (pre ++ y) !! p = Some c) (seq (length pre) (length y)))
  = length (filter (λ l, l = c) y).
Proof.
  revert pre. induction y as [|a y IH]; intros pre; [reflexivity|].
  cbn [length seq]. rewrite !filter_cons.
  rewrite list_lookup_middle by reflexivity.
  specialize (IH (pre ++ [a])). rewrite length_app, Nat.add_1_r, <- app_assoc in IH.
  cbn [app] in IH.
  destruct (decide (a = c)) as [->|Hne].
  - rewrite decide_True by reflexivity. cbn [length]. rewrite IH. reflexivity.
  - rewrite decide_False by congruence. exact IH.
Qed.

(** [bincount] counts the rows that [class_positions] lists. *)
Lemma bincount_class_positions (classes y : list Z) :
  Forall2 (λ count indices, Z.to_nat count = length indices)
    (sklearn.bincount classes y) (sklearn.class_positions classes y).
Proof.
  unfold sklearn.bincount, sklearn.class_positions.
  induction classes as [|c classes IH]; [constructor|].
  cbn [fmap list_fmap]. constructor; [|exact IH].
  rewrite Nat2Z.id. symmetry. apply (positions_count_app c [] y).
Qed.

Lemma class_positions_NoDup (classes y : list Z) :
  NoDup classes → NoDup (concat (sklearn.class_positions classes y)).
Proof.
  unfold sklearn.class_positions.
  induction 1 as [|c classes Hc _ IH]; [constructor|].
  cbn [fmap list_fmap concat]. apply NoDup_app. split; [|split; [|exact IH]].
  - apply NoDup_filter, NoDup_seq.
  - intros p Hp Hin. apply list_elem_of_filter in Hp as [Hp _].
    apply elem_of_concat in Hin as (l & Hpl & Hl).
    apply list_elem_of_fmap in Hl as (c2 & -> & Hc2).
    apply list_elem_of_filter in Hpl as [Hp2 _].
    rewrite Hp in Hp2. injection Hp2 as ->. contradiction.
Qed.

Lemma class_positions_bound (classes y : list Z) (p : nat) :
  p ∈ concat (sklearn.class_positions classes y) → (p < length y)%nat.
Proof.
  unfold sklearn.class_positions. intros Hin.
  apply elem_of_concat in Hin as (l & Hpl & Hl).
  apply list_elem_of_fmap in Hl as (c & -> & _).
  apply list_elem_of_filter in Hpl as [_ Hp]. apply elem_of_seq in Hp. lia.
Qed.

Lemma mapM_result_Forall2 {A B} (f : A → result B) (l : list A) (k : list B) :
  mapM f l = Ok k → Forall2 (λ a b, f a = Ok b) l k.
Proof.
  revert k. induction l as [|a l IH]; intros k.
  - intros [= <-]. constructor.
  - cbn [mapM]. destruct (f a) as [b|] eqn:Hb; [|discriminate].
    cbn [mbind result_bind]. destruct (mapM f l) as [k2|]; [|discriminate].
    cbn [mbind result_bind mret result_ret]. intros [= <-]. constructor; auto.
Qed.

Lemma positions_rows (dataset train_set test_set : DataFrame)
    (train_index test_index : list nat) :
  train_index ++ test_index ⊆+ seq 0 (len dataset) →
  iloc dataset train_index = Ok train_set →
  iloc dataset test_index = Ok test_set →
  NoDup (train_index ++ test_index) ∧
  (∀ i, i ∈ train_index ++ test_index → (i < len dataset)%nat) ∧
  len train_set = length train_index ∧
  len test_set = length test_index ∧
  (len train_set + len test_set ≤ len dataset)%nat.
Proof.
  intros Hsub Htr Hte.
  split; [eapply submseteq_NoDup; [exact Hsub|apply NoDup_seq]|].
  split.
  { intros i Hi. eapply elem_of_submseteq in Hi; [|exact Hsub].
    apply elem_of_seq in Hi. lia. }
  rewrite (proj2 (iloc_index _ _ _ Htr)), (proj2 (iloc_index _ _ _ Hte)).
  split; [reflexivity|]. split; [reflexivity|].
  apply submseteq_length in Hsub. rewrite length_app, length_seq in Hsub. exact Hsub.
Qed.

Section stratified_theorem.
Context `{BitGenerator}.

Lemma split_positions (self : sklearn.StratifiedShuffleSplit) (X : DataFrame)
    (y : column) (indices : list (list nat * list nat)) :
  sklearn.split self X y = Ok indices →
  length indices = sklearn.n_splits self ∧
  Forall (λ p, p.1 ++ p.2 ⊆+ seq 0 (len X)) indices.
Proof.
  unfold sklearn.split.
  destruct (sklearn.check_array y) as [labels|]; [|discriminate].
  cbn [mbind result_bind].
  destruct (len X =? length labels)%nat eqn:Hlen; [|discriminate].
  apply Nat.eqb_eq in Hlen. cbn [negb].
  destruct (sklearn.validate_shuffle_split (len X) (sklearn.test_size self))
    as [[n_train n_test]|]; [|discriminate].
  cbn [mbind result_bind].
  destruct (_ <? 2)%Z; [discriminate|].
  destruct (n_train <? _)%Z; [discriminate|].
  destruct (n_test <? _)%Z; [discriminate|].
  intros Hiter.
  apply iter_indices_submseteq in Hiter as [Hn Hall];
    [|apply bincount_class_positions].
  split; [exact Hn|].
  eapply Forall_impl; [exact Hall|]. intros p Hp. cbn beta in Hp.
  etrans; [exact Hp|]. rewrite Hlen.
  apply NoDup_submseteq.
  - apply class_positions_NoDup. unfold sklearn.unique.
    rewrite merge_sort_Permutation. apply NoDup_remove_dups.
  - intros i Hi. apply class_positions_bound in Hi. apply elem_of_seq. lia.
Qed.

(** The pairs the stratified split returns, against the position arrays
    the splitter yields: one pair of frames for each pair of arrays, and
    each frame is the rows at its array. *)
Lemma stratified_split_positions (dataset : DataFrame)
    (data_splitter : sklearn.StratifiedShuffleSplit)
    (stratified_splits : list (DataFrame * DataFrame)) :
  stratified_shuffle_and_split_data dataset data_splitter = Ok stratified_splits →
  ∃ indices,
    length indices = sklearn.n_splits data_splitter ∧
    Forall2 (λ p pair, p.1 ++ p.2 ⊆+ seq 0 (len dataset) ∧
                       iloc dataset p.1 = Ok pair.1 ∧
                       iloc dataset p.2 = Ok pair.2)
            indices stratified_splits.
Proof.
  unfold stratified_shuffle_and_split_data.
  destruct (getitem dataset "income_cat") as [income_cat|]; [|discriminate].
  cbn [mbind result_bind].
  destruct (sklearn.split data_splitter dataset income_cat) as [indices|] eqn:Hsplit;
    [|discriminate].
  cbn [mbind result_bind]. intros Hmap.
  apply split_positions in Hsplit as [Hn Hall].
  apply mapM_result_Forall2 in Hmap.
  exists indices. split; [exact Hn|]. clear Hn.
  induction Hmap as [|[train_index test_index] [train test] indices splits
                       Hpair _ IH]; [constructor|].
  apply Forall_cons in Hall as [Hsub Hall]. constructor; [|apply IH, Hall].
  cbn [fst snd] in *. split; [exact Hsub|].
  destruct (iloc dataset train_index) as [tr|]; [|discriminate].
  cbn [mbind result_bind] in Hpair.
  destruct (iloc dataset test_index) as [te|]; [|discriminate].
  cbn [mbind result_bind] in Hpair. injection Hpair as <- <-. split; reflexivity.
Qed.

(** X13: Whenever the stratified split returns, it returns [n_splits] pairs,
    and each pair is the rows of the record set at two arrays of valid
    positions that have no position in common and none twice: no row is
    in both the train and the test set of a pair, and the two sets
    together are no larger than the record set. *)
Theorem stratified_splits_disjoint (dataset : DataFrame)
    (data_splitter : sklearn.StratifiedShuffleSplit)
    (stratified_splits : list (DataFrame * DataFrame)) :
  stratified_shuffle_and_split_data dataset data_splitter = Ok stratified_splits →
  length stratified_splits = sklearn.n_splits data_splitter ∧
  Forall (λ pair, ∃ train_index test_index,
            iloc dataset train_index = Ok pair.1 ∧
            iloc dataset test_index = Ok pair.2 ∧
            NoDup (train_index ++ test_index) ∧
            (∀ i, i ∈ train_index ++ test_index → (i < len dataset)%nat) ∧
            len pair.1 = length train_index ∧
            len pair.2 = length test_index ∧
            (len pair.1 + len pair.2 ≤ len dataset)%nat)
         stratified_splits.
Proof.
  intros Hrun.
  destruct (stratified_split_positions _ _ _ Hrun) as (indices & Hn & Hall).
  split; [rewrite <- Hn; symmetry; eapply Forall2_length; exact Hall|].
  clear Hn Hrun.
  induction Hall as [|[train_index test_index] pair indices splits
                       (Hsub & Htr & Hte) _ IH]; constructor; [|exact IH].
  cbn [fst snd] in *. exists train_index, test_index.
  split; [exact Htr|]. split; [exact Hte|].
  exact (positions_rows _ _ _ _ _ Hsub Htr Hte).
Qed.

End stratified_theorem.

Lemma stratified_splits_disjoint_witness :
  ∃ housing_data stratified_splits,
    add_income_category
      (housing [1; 1.2; 2; 2.5; 2.2; 2.8; 4; 4.2; 4.4; 5; 5.5; 4.1]%float)
      = Ok housing_data ∧
    stratified_shuffle_and_split_data housing_data
      {| sklearn.n_splits := 2; sklearn.test_size := 0.3%float;
         sklearn.random_state := 42 |} = Ok stratified_splits ∧
    length stratified_splits = 2%nat ∧
    Forall (λ pair, ∃ train_index test_index,
              iloc housing_data train_index = Ok pair.1 ∧
              iloc housing_data test_index = Ok pair.2 ∧
              NoDup (train_index ++ test_index) ∧
              (∀ i, i ∈ train_index ++ test_index → (i < len housing_data)%nat) ∧
              len pair.1 = length train_index ∧
              len pair.2 = length test_index ∧
              (len pair.1 + len pair.2 ≤ len housing_data)%nat)
           stratified_splits.
Proof.
  eexists. eexists. split; [reflexivity|].
  match goal with
  | |- ?run ∧ _ => assert (Hrun : run) by (vm_compute; reflexivity)
  end.
  split; [exact Hrun|].
  exact (stratified_splits_disjoint (H := lcg) _ _ _ Hrun).
Defined.

(** ** The random split for any ratio, and the whole pipeline *)

Section pipeline_facts.
Context `{BitGenerator}.

(** X6: Whatever the ratio is (also outside (0, 1), where the size
    [int(n * ratio)] is negative or exceeds the row count), a random split
    that returns has put every row of the record set in exactly one of
    the two sets, and both sets keep all the columns. *)
Theorem shuffle_and_split_data_covers (dataset : DataFrame) (test_ratio : float)
    (np_random np_random' : rng_state) (train_set test_set : DataFrame) :
  shuffle_and_split_data dataset test_ratio np_random
    = Ok ((train_set, test_set), np_random') →
  index test_set ++ index train_set ≡ₚ index dataset ∧
  (len test_set + len train_set = len dataset)%nat ∧
  dom (columns train_set) = dom (columns dataset) ∧
  dom (columns test_set) = dom (columns dataset).
Proof.
  intros Hsplit.
  destruct (shuffle_and_split_data_inv _ _ _ _ _ _ Hsplit)
    as (train_indices & test_indices & Htrain & Htest & Hrows).
  split; [exact Hrows|]. split.
  - unfold len. rewrite <- length_app, Hrows. reflexivity.
  - split; eapply iloc_columns_dom; eassumption.
Qed.

(** X14: A record set with a median income that is not above zero stops the
    script at the stratified split: the labelling succeeds and leaves
    that row without an income category, the random split of the
    labelled set succeeds, the stratified split of it raises
    [ValueError], and that error is how the run ends. *)
Theorem pipeline_refuses_nonpositive_income (housing_data : DataFrame)
    (median_income : list float) (x : float) (np_random : rng_state) :
  columns housing_data !! "median_income" = Some (Float64 median_income) →
  x ∈ median_income →
  (x <=? 0)%float = true ∨ F64.isnan x = true →
  (Z.of_nat (len housing_data) < 2 ^ 53)%Z →
  ∃ labelled_data income_cat i train_set test_set np_random' msg,
    add_income_category housing_data = Ok labelled_data ∧
    columns labelled_data !! "income_cat" = Some (Category income_labels income_cat) ∧
    median_income !! i = Some x ∧
    income_cat !! i = Some None ∧
    shuffle_and_split_data labelled_data 0.2%float (rng_seed 42)
      = Ok ((train_set, test_set), np_random') ∧
    index test_set ++ index train_set ≡ₚ index housing_data ∧
    stratified_shuffle_and_split_data labelled_data
      {| sklearn.n_splits := 1; sklearn.test_size := 0.2%float;
         sklearn.random_state := 42 |} = Raise (ValueError msg) ∧
    pipeline housing_data np_random = Raise (ValueError msg).
Proof.
  intros Hcol Hx Hbad Hn.
  pose proof (add_income_category_Float64 housing_data median_income Hcol) as Hadd.
  set (labelled_data := setitem housing_data "income_cat" _) in Hadd.
  destruct (unlabelled_row_ValueError labelled_data _ _
              {| sklearn.n_splits := 1; sklearn.test_size := 0.2%float;
                 sklearn.random_state := 42 |} (lookup_insert_eq _ _ _)
              (cut1_unlabelled median_income x Hx Hbad)) as (msg & Hstrat).
  change (len housing_data) with (len labelled_data) in Hn.
  destruct (Rounding.py_int_count_times_ratio (len labelled_data) 0.2%float
              Hn eq_refl eq_refl) as (k & Hk & _).
  destruct (RandomState.permutation (len labelled_data) (rng_seed 42))
    as [shuffled rng1] eqn:Hperm.
  destruct (shuffle_and_split_data_cut _ _ _ _ _ _ Hperm Hk)
    as (train & test & _ & _ & Hrows & Hsplit).
  pose proof Hx as Hx'. apply list_elem_of_lookup in Hx' as [i Hi].
  exists labelled_data, (pd.cut1 income_bins income_labels <$> median_income), i,
    train, test, rng1, msg.
  split; [exact Hadd|]. split; [apply lookup_insert_eq|].
  split; [exact Hi|]. split.
  { rewrite list_lookup_fmap, Hi. cbn. f_equal.
    apply (cut1_income_cases x _ eq_refl). exact Hbad. }
  split; [exact Hsplit|]. split; [exact Hrows|]. split; [exact Hstrat|].
  unfold pipeline. rewrite Hadd. cbn [mbind result_bind].
  rewrite Hsplit. cbn [mbind result_bind]. rewrite Hstrat. reflexivity.
Qed.

(** X15: What a run that ends leaves: the random train and test sets hold
    every row of the labelled record set once; the stratified train and
    test sets are rows of it at positions that do not overlap; and the
    printed table has the rows 1 to 5 in order. *)
Theorem pipeline_result (housing_data : DataFrame) (np_random : rng_state) (r : run) :
  pipeline housing_data np_random = Ok r →
  index (test_set r) ++ index (train_set r) ≡ₚ index housing_data ∧
  (len (stratified_train_set r) + len (stratified_test_set r) ≤ len housing_data)%nat ∧
  (∃ train_index test_index labelled_data,
     add_income_category housing_data = Ok labelled_data ∧
     iloc labelled_data train_index = Ok (stratified_train_set r) ∧
     iloc labelled_data test_index = Ok (stratified_test_set r) ∧
     NoDup (train_index ++ test_index)) ∧
  index (compare_props r) = [1; 2; 3; 4; 5]%Z.
Proof.
  unfold pipeline.
  destruct (add_income_category housing_data) as [labelled_data|] eqn:Hadd;
    [|discriminate].
  cbn [mbind result_bind].
  destruct (shuffle_and_split_data labelled_data 0.2 (rng_seed 42))
    as [[[train test] rng1]|] eqn:Hsplit; [|discriminate].
  cbn [mbind result_bind].
  destruct (stratified_shuffle_and_split_data labelled_data _) as [splits|] eqn:Hstrat;
    [|discriminate].
  cbn [mbind result_bind].
  destruct (splits !! 0%nat) as [[strat_train strat_test]|] eqn:Hfirst; [|discriminate].
  cbn [mbind result_bind].
  destruct (compare_income_category_proportions labelled_data strat_test test)
    as [report|] eqn:Hreport; [|discriminate].
  cbn [mbind result_bind]. intros [= <-]. cbn.
  assert (Hidx : index labelled_data = index housing_data).
  { revert Hadd. unfold add_income_category.
    destruct (getitem housing_data "median_income") as [c|]; [|discriminate].
    cbn [mbind result_bind]. destruct (pd.cut c income_bins income_labels);
      [|discriminate].
    cbn [mbind result_bind]. intros [= <-]. reflexivity. }
  destruct (shuffle_and_split_data_inv _ _ _ _ _ _ Hsplit)
    as (train_indices & positions & _ & Htest & Hrows).
  destruct (stratified_split_positions _ _ _ Hstrat) as (indices & _ & Hall).
  destruct (Forall2_lookup_r _ _ _ _ _ Hall Hfirst)
    as ([train_index test_index] & _ & Hsub & Htr & Hte).
  cbn [fst snd] in *.
  destruct (positions_rows _ _ _ _ _ Hsub Htr Hte) as (Hnodup & _ & _ & _ & Hle).
  split; [rewrite <- Hidx; exact Hrows|].
  split; [unfold len in *; rewrite <- Hidx; exact Hle|].
  split; [exists train_index, test_index, labelled_data; auto|].
  destruct (compare_labelled_table _ _ _ _ _ _ Hadd Hte Htest)
    as (report' & Hreport' & Hrows5 & _).
  rewrite Hreport in Hreport'. injection Hreport' as <-. exact Hrows5.
Qed.

(** C7: a run does not depend on the state the global generator is in
    when it starts: the script seeds it with 42 before the first draw and
    gives the splitter its own seed 42, so two runs on the same housing
    data end the same way, with the same random partition, the same
    stratified partition and the same report, or with the same error. *)
Theorem pipeline_deterministic (housing_data : DataFrame)
    (np_random1 np_random2 : rng_state) :
  pipeline housing_data np_random1 = pipeline housing_data np_random2 ∧
  ∀ r1 r2,
    pipeline housing_data np_random1 = Ok r1 →
    pipeline housing_data np_random2 = Ok r2 →
    train_set r1 = train_set r2 ∧ test_set r1 = test_set r2 ∧
    stratified_train_set r1 = stratified_train_set r2 ∧
    stratified_test_set r1 = stratified_test_set r2 ∧
    compare_props r1 = compare_props r2.
Proof.
  assert (Heq : pipeline housing_data np_random1 = pipeline housing_data np_random2)
    by reflexivity.
  split; [exact Heq|].
  intros r1 r2 H1 H2. rewrite Heq, H2 in H1. injection H1 as <-.
  repeat split.
Qed.

End pipeline_facts.

Lemma shuffle_and_split_data_covers_witness :
  ∃ train_set test_set np_random',
    shuffle_and_split_data (housing [1; 2; 3; 4; 5]%float) (-0.5)%float 42%Z
      = Ok ((train_set, test_set), np_random') ∧
    index test_set ++ index train_set ≡ₚ index (housing [1; 2; 3; 4; 5]%float) ∧
    (len test_set + len train_set = len (housing [1; 2; 3; 4; 5]%float))%nat ∧
    dom (columns train_set) = dom (columns (housing [1; 2; 3; 4; 5]%float)) ∧
    dom (columns test_set) = dom (columns (housing [1; 2; 3; 4; 5]%float)).
Proof.
  eexists. eexists. eexists.
  match goal with
  | |- ?run ∧ _ => assert (Hrun : run) by (vm_compute; reflexivity)
  end.
  split; [exact Hrun|].
  exact (shuffle_and_split_data_covers (H := lcg) _ _ _ _ _ _ Hrun).
Defined.

Lemma pipeline_refuses_nonpositive_income_witness :
  ∃ labelled_data income_cat i train_set test_set np_random' msg,
    add_income_category (housing [2; 0; 3; 5]%float) = Ok labelled_data ∧
    columns labelled_data !! "income_cat" = Some (Category income_labels income_cat) ∧
    [2; 0; 3; 5]%float !! i = Some 0%float ∧
    income_cat !! i = Some None ∧
    shuffle_and_split_data labelled_data 0.2%float 42%Z
      = Ok ((train_set, test_set), np_random') ∧
    index test_set ++ index train_set ≡ₚ index (housing [2; 0; 3; 5]%float) ∧
    stratified_shuffle_and_split_data labelled_data
      {| sklearn.n_splits := 1; sklearn.test_size := 0.2%float;
         sklearn.random_state := 42 |} = Raise (ValueError msg) ∧
    pipeline (housing [2; 0; 3; 5]%float) 7%Z = Raise (ValueError msg).
Proof.
  apply (@pipeline_refuses_nonpositive_income lcg (housing [2; 0; 3; 5]%float)
           [2; 0; 3; 5]%float 0%float 7%Z).
  - reflexivity.
  - right. left.
  - left. reflexivity.
  - reflexivity.
Defined.

Lemma pipeline_result_witness :
  ∃ r,
    pipeline (housing [2; 2.5; 2.2; 2.8; 2.1; 4; 4.2; 4.4; 4.1; 3.5]%float) 7%Z = Ok r ∧
    index (test_set r) ++ index (train_set r)
      ≡ₚ index (housing [2; 2.5; 2.2; 2.8; 2.1; 4; 4.2; 4.4; 4.1; 3.5]%float) ∧
    (len (stratified_train_set r) + len (stratified_test_set r)
       ≤ len (housing [2; 2.5; 2.2; 2.8; 2.1; 4; 4.2; 4.4; 4.1; 3.5]%float))%nat ∧
    (∃ train_index test_index labelled_data,
       add_income_category
         (housing [2; 2.5; 2.2; 2.8; 2.1; 4; 4.2; 4.4; 4.1; 3.5]%float)
         = Ok labelled_data ∧
       iloc labelled_data train_index = Ok (stratified_train_set r) ∧
       iloc labelled_data test_index = Ok (stratified_test_set r) ∧
       NoDup (train_index ++ test_index)) ∧
    index (compare_props r) = [1; 2; 3; 4; 5]%Z.
Proof.
  eexists.
  match goal with
  | |- ?run ∧ _ => assert (Hrun : run) by (vm_compute; reflexivity)
  end.
  split; [exact Hrun|].
  exact (pipeline_result (H := lcg) _ _ _ Hrun).
Defined.

(** ** The income category grows with the income *)

Lemma SFltb_leb_trans x y z :
  SFltb x y = true → SFleb y z = true → SFltb x z = true.
Proof.
  unfold SFltb, SFleb.
  destruct x as [s1|s1| |s1 m1 e1], y as [s2|s2| |s2 m2 e2], z as [s3|s3| |s3 m3 e3];
    simpl; try discriminate;
    try (destruct s1; simpl; try discriminate; try reflexivity);
    try (destruct s2; simpl; try discriminate; try reflexivity);
    try (destruct s3; simpl; try discriminate; try reflexivity).
  all: intros; cmp_cases.
Qed.

Lemma ltb_leb_trans (x y z : float) :
  (x <? y)%float = true → (y <=? z)%float = true → (x <? z)%float = true.
Proof. rewrite !FloatAxioms.ltb_spec, FloatAxioms.leb_spec. apply SFltb_leb_trans. Qed.

Lemma cut1_income_monotone (x y : float) (a b : Z) :
  (x <=? y)%float = true →
  pd.cut1 income_bins income_labels x = Some a →
  pd.cut1 income_bins income_labels y = Some b →
  (a ≤ b)%Z.
Proof.
  intros Hxy Ha Hb.
  destruct (leb_not_nan _ _ Hxy) as [Hnx Hny].
  assert (Hup : ∀ c, (c <? x)%float = true → (c <? y)%float = true)
    by (intros c Hc; exact (ltb_leb_trans c x y Hc Hxy)).
  rewrite cut1_income_bins, Hnx in Ha. rewrite cut1_income_bins, Hny in Hb.
  rewrite !(leb_negb_ltb x) in Ha by (assumption || reflexivity).
  rewrite !(leb_negb_ltb y) in Hb by (assumption || reflexivity).
  pose proof (Hup 0%float) as H0. pose proof (Hup 1.5%float) as H1.
  pose proof (Hup 3%float) as H2. pose proof (Hup 4.5%float) as H3.
  pose proof (Hup 6%float) as H4.
  destruct (0 <? x)%float; [specialize (H0 eq_refl); rewrite H0 in Hb|discriminate].
  cbn [negb] in Ha, Hb.
  destruct (1.5 <? x)%float; cbn [negb] in Ha.
  2:{ injection Ha as <-.
      destruct (1.5 <? y)%float, (3 <? y)%float, (4.5 <? y)%float, (6 <? y)%float;
        cbn [negb] in Hb; injection Hb as <-; lia. }
  specialize (H1 eq_refl). rewrite H1 in Hb. cbn [negb] in Hb.
  destruct (3 <? x)%float; cbn [negb] in Ha.
  2:{ injection Ha as <-.
      destruct (3 <? y)%float, (4.5 <? y)%float, (6 <? y)%float;
        cbn [negb] in Hb; injection Hb as <-; lia. }
  specialize (H2 eq_refl). rewrite H2 in Hb. cbn [negb] in Hb.
  destruct (4.5 <? x)%float; cbn [negb] in Ha.
  2:{ injection Ha as <-.
      destruct (4.5 <? y)%float, (6 <? y)%float;
        cbn [negb] in Hb; injection Hb as <-; lia. }
  specialize (H3 eq_refl). rewrite H3 in Hb. cbn [negb] in Hb.
  destruct (6 <? x)%float; cbn [negb] in Ha.
  2:{ injection Ha as <-.
      destruct (6 <? y)%float; cbn [negb] in Hb; injection Hb as <-; lia. }
  specialize (H4 eq_refl). rewrite H4 in Hb. cbn [negb] in Hb.
  injection Ha as <-. injection Hb as <-. lia.
Qed.

(** X8: The income category grows with the income: of two rows that both get
    a label, the one with the lower (or equal) median income never gets
    the higher label. *)
Theorem add_income_category_monotone (data : DataFrame) (median_income : list float)
    (i j : nat) (x y : float) :
  columns data !! "median_income" = Some (Float64 median_income) →
  median_income !! i = Some x →
  median_income !! j = Some y →
  (x <=? y)%float = true →
  ∃ housing_data income_cat,
    add_income_category data = Ok housing_data ∧
    columns housing_data !! "income_cat" = Some (Category income_labels income_cat) ∧
    ∀ a b, income_cat !! i = Some (Some a) → income_cat !! j = Some (Some b) →
           (a ≤ b)%Z.
Proof.
  intros Hcol Hi Hj Hxy.
  eexists. eexists. split; [apply add_income_category_Float64, Hcol|].
  split; [apply lookup_insert_eq|].
  intros a b. rewrite !list_lookup_fmap, Hi, Hj. cbn.
  intros [= Ha] [= Hb]. exact (cut1_income_monotone x y a b Hxy Ha Hb).
Qed.

Lemma add_income_category_monotone_witness :
  ∃ housing_data income_cat,
    add_income_category (housing [5; 0.5; 7; 2]%float) = Ok housing_data ∧
    columns housing_data !! "income_cat" = Some (Category income_labels income_cat) ∧
    ∀ a b, income_cat !! 3%nat = Some (Some a) → income_cat !! 0%nat = Some (Some b) →
           (a ≤ b)%Z.
Proof.
  apply (add_income_category_monotone (housing [5; 0.5; 7; 2]%float)
           [5; 0.5; 7; 2]%float 3 0 2%float 5%float); reflexivity.
Defined.
